(** * Matrix client wrapper (src/index.js): shallow embedding and properties

    The module under verification is a thin asynchronous wrapper around
    matrix-js-sdk.  Every function of the module is a straight-line
    sequence of calls into collaborators (the SDK client object, olm, fs,
    the sibling module ./matrix, console, promise callbacks) with
    try/catch blocks around some of them.

    The embedding has three layers:
    - the data the module handles (credentials, events, room members);
    - the calls it issues, as an indexed type [Call], and programs over
      them, as an inductive interaction tree [Prog] with [bind] and
      [try_catch];
    - an interpreter [run] which threads the module-level variable
      [client], answers every external call from an arbitrary oracle, and
      records the trace of calls with their answers.

    [await] is modelled as sequencing: the properties below concern which
    calls are issued, in which order, and what the returned promise settles
    to, not the interleaving of several pending operations. *)

From Stdlib Require Import String ZArith List Bool Lia.
Import ListNotations.
Local Open Scope string_scope.

Set Implicit Arguments.

(* ------------------------------------------------------------------ *)
(** ** JavaScript values the module manipulates *)

(** What can be thrown or used as a rejection reason: an Error object
    (its name and message), a bare string (line 164 rejects with one; it
    stands for every value that is neither an Error nor nullish), or null
    or undefined, which a promise may be rejected with as well. *)
Inductive exn : Type :=
| JsError (name message : string)
| JsReason (text : string)
| JsNull
| JsUndefined.

(** [new Error(m)] *)
Definition Error (m : string) : exn := JsError "Error" m.

(** The TypeError raised by a property access on an undefined or null
    receiver. *)
Definition TypeError (receiver property : string) : exn :=
  JsError "TypeError"
    ("Cannot read properties of " ++ receiver ++
     " (reading '" ++ property ++ "')").

(** The receiver's name in the TypeError that reading a property of
    [e] throws, when [e] is null or undefined. *)
Definition nullish (e : exn) : option string :=
  match e with
  | JsNull => Some "null"
  | JsUndefined => Some "undefined"
  | _ => None
  end.

(** The value of [err.message] when it can be read: undefined when [err]
    is not an Error object.  On null and undefined the read itself throws
    ([read_message] below). *)
Definition err_message (e : exn) : option string :=
  match e with
  | JsError _ m => Some m
  | _ => None
  end.

(** [new Error(x)] for a possibly undefined [x]: the message is empty. *)
Definition Error_of (m : option string) : exn :=
  match m with
  | Some s => Error s
  | None => Error ""
  end.

Inductive result (R : Type) : Type :=
| Ok (r : R)
| Err (e : exn).
Arguments Ok {R} r.
Arguments Err {R} e.

(** Truthiness of a string-or-undefined value. *)
Definition truthy_str (v : option string) : bool :=
  match v with
  | Some s => negb (s =? "")
  | None => false
  end.

Definition opt_str_eqb (a b : option string) : bool :=
  match a, b with
  | Some x, Some y => x =? y
  | None, None => true
  | _, _ => false
  end.

(** The credentials object: each property is absent ([None]) or a string.
    The value parsed from the credentials file is seen through the same
    three properties. *)
Record CredObj : Type := {
  homeserverUrl : option string;
  username : option string;
  password : option string
}.

(** The second argument of [runClient] as the caller wrote it.  The
    default [{}] replaces an omitted (undefined) argument only. *)
Inductive CredArg : Type :=
| CredOmitted
| CredNull
| CredObject (c : CredObj).

Definition empty_cred : CredObj :=
  {| homeserverUrl := None; username := None; password := None |}.

Definition default_credentials (a : CredArg) : option CredObj :=
  match a with
  | CredOmitted => Some empty_cred
  | CredNull => None
  | CredObject c => Some c
  end.

(** [obj[prop]] *)
Definition get_prop (o : CredObj) (prop : string) : option string :=
  if prop =? "homeserverUrl" then homeserverUrl o
  else if prop =? "username" then username o
  else if prop =? "password" then password o
  else None.

(** [obj?.[prop]] on a possibly falsy [obj] *)
Definition opt_prop (o : option CredObj) (prop : string) : option string :=
  match o with
  | Some c => get_prop c prop
  | None => None
  end.

(** [obj.hasOwnProperty(prop)] *)
Definition hasOwnProperty (o : CredObj) (prop : string) : bool :=
  match get_prop o prop with
  | Some _ => true
  | None => false
  end.

(** Result of [getCredentialsWithPassword] (module ./matrix). *)
Record LoginResult : Type := {
  lr_accessToken : string;
  lr_userId : string;
  lr_deviceId : string
}.

(** Response of [client.login]. *)
Record LoginResponse : Type := {
  access_token : option string
}.

(** Value returned by the [authUploadDeviceSigningKeys] callback. *)
Record AuthDict : Type := {
  ad_user_id : option string;
  ad_device_id : option string;
  ad_access_token : option string
}.

(** The two module-level stores handed to [createClient]. *)
Inductive StoreRef : Type :=
| memoryStore
| cryptoStore.

(** Options object of [sdk.createClient] (lines 48-58). *)
Record CreateOpts : Type := {
  baseUrl : option string;
  accessToken : string;
  userId : string;
  deviceId : string;
  store : StoreRef;
  opt_cryptoStore : StoreRef;
  ignore_unknown_devices : bool      (* cryptoInfo.ignore_unknown_devices *)
}.

(** The part of the SDK client object the module configures: the options
    it was created from and the two global device-trust flags. *)
Record ClientObj : Type := {
  opts : CreateOpts;
  globalBlacklistUnverifiedDevices : bool;
  globalErrorOnUnknownDevices : bool
}.

Record RoomMember : Type := {
  member_userId : string;
  member_roomId : string;
  membership : option string;
  powerLevel : Z
}.

Record Room : Type := {
  room_roomId : string;
  room_members : list RoomMember
}.

(** [room.getMember(userId)]: the member with that id, or null. *)
Definition getMember (r : Room) (uid : option string) : option RoomMember :=
  match uid with
  | Some u => find (fun m => member_userId m =? u) (room_members r)
  | None => None
  end.

(** A timeline event, through the accessors the module uses:
    getType(), getRoomId(), getContent().body, isDecryptionFailure(). *)
Record MatrixEvent : Type := {
  ev_type : string;
  ev_roomId : option string;
  ev_body : option string;
  ev_isDecryptionFailure : bool
}.

(** Content of the m.room.power_levels state event: the [invite] level,
    undefined when the event does not carry it. *)
Record PowerLevels : Type := {
  invite : option Z
}.

(** [a > b] on a number-or-undefined [a]: comparing undefined is false. *)
Definition js_gt (a : option Z) (b : Z) : bool :=
  match a with
  | Some x => (b <? x)%Z
  | None => false
  end.

(** What [isUserJoinedInRoom] returns: [member && ...] yields null when
    the member is null, a boolean otherwise. *)
Inductive Joined : Type :=
| JNull
| JBool (b : bool).

Definition truthy_joined (j : Joined) : bool :=
  match j with
  | JNull => false
  | JBool b => b
  end.

(** Arguments printed by console.log / console.error. *)
Inductive LogArg : Type :=
| LStr (s : string)
| LOptStr (s : option string)
| LExn (e : exn).

(* ------------------------------------------------------------------ *)
(** ** Closures handed to the SDK, defunctionalised

    Each constructor is one function literal of the source together with
    the variables it captures. *)

Inductive Listener : Type :=
| AutoJoinListener                                   (* lines 61-67 *)
| GetMessageListener (p : nat)                       (* lines 141-150 *)
| GetMessageEncryptedListener (p : nat)              (* lines 174-181 *)
| GetMessageEncryptedFailureListener (p : nat)       (* lines 188-191 *)
| MessageListenerListener (cb : nat) (roomId : string)           (* 213-225 *)
| MessageListenerEncryptedListener (cb : nat) (roomId : string). (* 239-248 *)

Inductive AuthCallback : Type :=
| AuthUploadDeviceSigningKeys (data : CredObj).      (* lines 80-95 *)

Definition megolm : string := "m.megolm.v1.aes-sha2".

(* ------------------------------------------------------------------ *)
(** ** Calls

    [Call R] is a call whose normal answer has type [R]; every call may
    also throw (or, for an awaited promise, reject).  [JsonParse] answers
    [None] when the parsed value is falsy.

    [SetRoomEncryptionPromise] is [client.setRoomEncryption(..)] used as
    the head of a promise chain instead of being awaited (line 236): the
    call either throws on the spot, or returns a promise, and then the
    normal answer is how that promise settles. *)

Inductive Call : Type -> Type :=
(* the module-level variable [client] *)
| ReadClient : Call (option ClientObj)
| WriteClient (c : option ClientObj) : Call unit
(* JavaScript runtime *)
| ConsoleLog (args : list LogArg) : Call unit
| ConsoleError (args : list LogArg) : Call unit
| Resolve (p : nat) (v : option string) : Call unit
| Reject (p : nat) (reason : exn) : Call unit
| JsonStringify (message : string) : Call string
| JsonParse (text : string) : Call (option CredObj)
(* collaborating modules and caller-supplied callbacks *)
| OlmInit : Call unit
| ReadFileSync (path : string) : Call string
| GetCredentialsWithPassword (user pass url : option string) : Call LoginResult
| CreateClient (o : CreateOpts) : Call ClientObj
| Callback (cb : nat) (v : option string) : Call unit
(* methods of the SDK client object *)
| InitCrypto : Call unit
| On (eventName : string) (l : Listener) : Call unit
| SetGlobalBlacklistUnverifiedDevices (b : bool) : Call unit
| SetGlobalErrorOnUnknownDevices (b : bool) : Call unit
| IsCryptoEnabled : Call bool
| StartClient (initialSyncLimit : Z) : Call unit
| GetCrossSigningId : Call (option string)
| BootstrapCrossSigning (cb : AuthCallback) : Call unit
| Login (loginType : string) (user pass : option string) : Call LoginResponse
| GetUserId : Call (option string)
| GetDeviceId : Call (option string)
| GetRoom (roomId : string) : Call (option Room)
| SetRoomEncryption (roomId algorithm : string) : Call unit
| SetRoomEncryptionPromise (roomId algorithm : string) : Call (result unit)
| IsRoomEncrypted (roomId : string) : Call bool
| SendEvent (roomId type body msgtype : string) : Call string
| GetStateEvent (roomId type stateKey : string) : Call PowerLevels
| RoomInitialSync (roomId : string) (limit : Z) : Call unit
| Invite (roomId userId : string) : Call unit
| JoinRoom (roomId : string) : Call unit.

(** Name of the method when the call is a method of [client]. *)
Definition method_name {R} (c : Call R) : option string :=
  match c with
  | InitCrypto => Some "initCrypto"
  | On _ _ => Some "on"
  | SetGlobalBlacklistUnverifiedDevices _ =>
      Some "setGlobalBlacklistUnverifiedDevices"
  | SetGlobalErrorOnUnknownDevices _ => Some "setGlobalErrorOnUnknownDevices"
  | IsCryptoEnabled => Some "isCryptoEnabled"
  | StartClient _ => Some "startClient"
  | GetCrossSigningId => Some "getCrossSigningId"
  | BootstrapCrossSigning _ => Some "bootstrapCrossSigning"
  | Login _ _ _ => Some "login"
  | GetUserId => Some "getUserId"
  | GetDeviceId => Some "getDeviceId"
  | GetRoom _ => Some "getRoom"
  | SetRoomEncryption _ _ => Some "setRoomEncryption"
  | SetRoomEncryptionPromise _ _ => Some "setRoomEncryption"
  | IsRoomEncrypted _ => Some "isRoomEncrypted"
  | SendEvent _ _ _ _ => Some "sendEvent"
  | GetStateEvent _ _ _ => Some "getStateEvent"
  | RoomInitialSync _ _ => Some "roomInitialSync"
  | Invite _ _ => Some "invite"
  | JoinRoom _ => Some "joinRoom"
  | _ => None
  end.

(** One entry of a trace: a call that was issued and how it was answered. *)
Inductive Event : Type :=
| Ev (R : Type) (c : Call R) (r : result R).

(* ------------------------------------------------------------------ *)
(** ** Programs *)

Inductive Prog (A : Type) : Type :=
| Ret (a : A)
| Throw (e : exn)
| Vis (R : Type) (c : Call R) (k : result R -> Prog A).
Arguments Ret {A} a.
Arguments Throw {A} e.
Arguments Vis {A R} c k.

Fixpoint bind {A B} (p : Prog A) (f : A -> Prog B) : Prog B :=
  match p with
  | Ret a => f a
  | Throw e => Throw e
  | Vis c k => Vis c (fun r => bind (k r) f)
  end.

(** [try { p } catch (e) { h e }] *)
Fixpoint try_catch {A} (p : Prog A) (h : exn -> Prog A) : Prog A :=
  match p with
  | Ret a => Ret a
  | Throw e => h e
  | Vis c k => Vis c (fun r => try_catch (k r) h)
  end.

(** A call whose exception propagates. *)
Definition call {R} (c : Call R) : Prog R :=
  Vis c (fun r => match r with Ok v => Ret v | Err e => Throw e end).

Declare Scope prog_scope.
Delimit Scope prog_scope with prog.
Notation "x <- p ;; q" := (bind p (fun x => q))
  (at level 61, p at next level, right associativity) : prog_scope.
Notation "p ;; q" := (bind p (fun _ => q))
  (at level 61, right associativity) : prog_scope.
Local Open Scope prog_scope.

(** The expression [err.message]: reading a property of null or undefined
    throws a TypeError. *)
Definition read_message (e : exn) : Prog (option string) :=
  match nullish e with
  | Some receiver => Throw (TypeError receiver "message")
  | None => Ret (err_message e)
  end.

(* ------------------------------------------------------------------ *)
(** ** Interpreter *)

Section Interpreter.

(** State of whatever lies behind the calls (home server, SDK
    internals, file system, callbacks). *)
Variable W : Type.

(** The oracle answers a call from the current world and moves to the
    next one; nothing is assumed about it. *)
Definition Oracle : Type := forall R, Call R -> W -> result R * W.

Record State : Type := {
  client : option ClientObj;    (* [let client;] of line 9 *)
  world : W
}.

Record Outcome (A : Type) : Type := {
  res : result A;
  final : State;
  trace : list Event
}.

Variable o : Oracle.

(** Calls the interpreter answers itself: reads and writes of the
    variable [client], and the runtime calls that cannot throw. *)
Definition internal {R} (c : Call R) (s : State)
  : option (result R * State * list Event) :=
  match c in Call R return option (result R * State * list Event) with
  | ReadClient => Some (Ok (client s), s, [])
  | WriteClient c' =>
      Some (Ok tt, {| client := c'; world := world s |}, [])
  | ConsoleLog a => Some (Ok tt, s, [Ev (ConsoleLog a) (Ok tt)])
  | ConsoleError a => Some (Ok tt, s, [Ev (ConsoleError a) (Ok tt)])
  | Resolve p v => Some (Ok tt, s, [Ev (Resolve p v) (Ok tt)])
  | Reject p e => Some (Ok tt, s, [Ev (Reject p e) (Ok tt)])
  | _ => None
  end.

(** What the caller receives: [createClient] builds the object from the
    options it is given, its remaining fields are the SDK's choice. *)
Definition received {R} (c : Call R) : result R -> result R :=
  match c in Call R return result R -> result R with
  | CreateClient op => fun r =>
      match r with
      | Ok obj =>
          Ok {| opts := op;
                globalBlacklistUnverifiedDevices :=
                  globalBlacklistUnverifiedDevices obj;
                globalErrorOnUnknownDevices :=
                  globalErrorOnUnknownDevices obj |}
      | Err e => Err e
      end
  | _ => fun r => r
  end.

Definition succeeded {R} (r : result R) : bool :=
  match r with
  | Ok _ => true
  | Err _ => false
  end.

(** Effect of a method call on the client object: the two setters store
    their argument when they return normally. *)
Definition effect {R} (c : Call R) (ok : bool) (obj : ClientObj) : ClientObj :=
  match c with
  | SetGlobalBlacklistUnverifiedDevices b =>
      if ok
      then {| opts := opts obj;
              globalBlacklistUnverifiedDevices := b;
              globalErrorOnUnknownDevices := globalErrorOnUnknownDevices obj |}
      else obj
  | SetGlobalErrorOnUnknownDevices b =>
      if ok
      then {| opts := opts obj;
              globalBlacklistUnverifiedDevices :=
                globalBlacklistUnverifiedDevices obj;
              globalErrorOnUnknownDevices := b |}
      else obj
  | _ => obj
  end.

Definition external {R} (c : Call R) (s : State)
  : result R * State * list Event :=
  let (r, w') := o c (world s) in
  let r' := received c r in
  (r',
   {| client := option_map (effect c (succeeded r')) (client s);
      world := w' |},
   [Ev c r']).

Definition step {R} (c : Call R) (s : State)
  : result R * State * list Event :=
  match internal c s with
  | Some a => a
  | None =>
      match method_name c, client s with
      | Some m, None => (Err (TypeError "undefined" m), s, [])
      | _, _ => external c s
      end
  end.

(** [evs] happened, then [out]. *)
Definition after {A} (evs : list Event) (out : Outcome A) : Outcome A :=
  {| res := res out; final := final out; trace := evs ++ trace out |}.

Fixpoint run {A} (p : Prog A) (s : State) : Outcome A :=
  match p with
  | Ret a => {| res := Ok a; final := s; trace := [] |}
  | Throw e => {| res := Err e; final := s; trace := [] |}
  | Vis c k =>
      let '(r, s', evs) := step c s in
      after evs (run (k r) s')
  end.

End Interpreter.

(* ------------------------------------------------------------------ *)
(** ** The module's functions *)

Definition required_properties : list string :=
  ["homeserverUrl"; "username"; "password"].

Definition is_some {A} (x : option A) : bool :=
  match x with
  | Some _ => true
  | None => false
  end.

(** The closure of lines 80-95, run by the SDK when it needs
    authorisation to upload the device signing keys. *)
Definition authUploadDeviceSigningKeys (data : CredObj) : Prog AuthDict :=
  response <- call (Login "m.login.password" (username data) (password data)) ;;
  uid <- call GetUserId ;;
  did <- call GetDeviceId ;;
  Ret {| ad_user_id := uid;
         ad_device_id := did;
         ad_access_token := access_token response |}.

(** The closure of lines 61-67.  The promise of [joinRoom] is not
    awaited: when it rejects, nothing is thrown inside the listener. *)
Definition autoJoin (member : RoomMember) : Prog unit :=
  if opt_str_eqb (membership member) (Some "invite") then
    uid <- call GetUserId ;;
    if opt_str_eqb (Some (member_userId member)) uid then
      Vis (JoinRoom (member_roomId member))
        (fun r =>
           match r with
           | Ok _ =>
               call (ConsoleLog [LStr "Auto-joined %s";
                                 LStr (member_roomId member)])
           | Err _ => Ret tt
           end)
    else Ret tt
  else Ret tt.

(** Body of the [try] block of [runClient], lines 47-97. *)
Definition runClient_try (data : option CredObj) : Prog unit :=
  match data with
  | None => Throw (TypeError "undefined" "username")
  | Some d =>
      cr <- call (GetCredentialsWithPassword
                    (username d) (password d) (homeserverUrl d)) ;;
      obj <- call (CreateClient
                     {| baseUrl := homeserverUrl d;
                        accessToken := lr_accessToken cr;
                        userId := lr_userId cr;
                        deviceId := lr_deviceId cr;
                        store := memoryStore;
                        opt_cryptoStore := cryptoStore;
                        ignore_unknown_devices := true |}) ;;
      call (WriteClient (Some obj)) ;;
      call InitCrypto ;;
      call (On "RoomMember.membership" AutoJoinListener) ;;
      call (SetGlobalBlacklistUnverifiedDevices false) ;;
      call (SetGlobalErrorOnUnknownDevices false) ;;
      enabled <- call IsCryptoEnabled ;;
      (if enabled : bool then
         call (ConsoleLog [LStr "STARTING client, crypto enabled"]) ;;
         call (StartClient 1)
       else Ret tt) ;;
      id <- call GetCrossSigningId ;;
      if negb (truthy_str id) then
        call (BootstrapCrossSigning (AuthUploadDeviceSigningKeys d))
      else Ret tt
  end.

(** The [catch] clause of [runClient], lines 98-100: the argument
    [err.message] is evaluated before console.error is called. *)
Definition runClient_catch (err : exn) : Prog unit :=
  message <- read_message err ;;
  call (ConsoleError [LOptStr message]).

(** The [try] statement of [runClient], lines 46-100. *)
Definition runClient_guarded (data : option CredObj) : Prog unit :=
  try_catch (runClient_try data) runClient_catch.

(** [missingProperties] of lines 34-37: the required properties that
    neither the file nor the object provides (with repetitions when a
    file was read). *)
Definition missingProperties (fileData credentials : option CredObj)
  : list string :=
  let fileProperties :=
    if is_some fileData then required_properties else [] in
  let objectProperties := required_properties in
  let properties := (fileProperties ++ objectProperties)%list in
  filter (fun prop => negb (truthy_str (opt_prop fileData prop))
                      && negb (truthy_str (opt_prop credentials prop)))
         properties.

(** Message of the error of line 40. *)
Definition missing_message (missing : list string) : string :=
  "Error: missing properties, needed properties: "
  ++ String.concat ", " missing.

(** [data] of line 44, computed when nothing is missing. *)
Definition select_data (fileData credentials : option CredObj)
  : option CredObj :=
  match credentials with
  | Some c =>
      if negb (is_some fileData)
         || existsb (fun prop => hasOwnProperty c prop)
                    (missingProperties fileData credentials)
      then credentials
      else fileData
  | None => fileData
  end.

(** [runClient], lines 18-101. *)
Definition runClient (filePath : option string) (arg : CredArg) : Prog unit :=
  let credentials := default_credentials arg in
  if negb (truthy_str filePath) && negb (is_some credentials) then
    Throw (Error "Error: must provide either a file path or a object with username, password and homeserverUrl")
  else
    call OlmInit ;;
    fileData <-
      (match filePath with
       | Some path =>
           if truthy_str filePath then
             fileContent <- call (ReadFileSync path) ;;
             call (JsonParse fileContent)
           else Ret None
       | None => Ret None
       end) ;;
    if (0 <? length (missingProperties fileData credentials))%nat then
      Throw (Error (missing_message (missingProperties fileData credentials)))
    else
      runClient_guarded (select_data fileData credentials).

(** [isUserJoinedInRoom], lines 195-205. *)
Definition isUserJoinedInRoom (roomId : string) : Prog Joined :=
  c <- call ReadClient ;;
  match c with
  | None => Throw (Error "Client is not initialized.")
  | Some _ =>
      room <- call (GetRoom roomId) ;;
      match room with
      | None => Ret (JBool false)
      | Some r =>
          uid <- call GetUserId ;;
          match getMember r uid with
          | None => Ret JNull
          | Some member =>
              Ret (JBool (opt_str_eqb (membership member) (Some "join")))
          end
      end
  end.

(** What [sendEncryptedMessage] does once the membership check has
    returned, lines 112-120.  [message] stands for the value handed to
    JSON.stringify. *)
Definition sendEncryptedMessage_rest (roomId message : string) : Prog unit :=
  call (SetRoomEncryption roomId megolm) ;;
  body <- call (JsonStringify message) ;;
  call (SendEvent roomId "m.room.message" body "m.text") ;;
  call (ConsoleLog [LStr "Encrypted message sent successfully."]).

(** The [catch] clause of [sendEncryptedMessage], lines 121-123. *)
Definition sendEncryptedMessage_catch (error : exn) : Prog unit :=
  call (ConsoleError [LStr "Error sending encrypted message:"; LExn error]).

(** [sendEncryptedMessage], lines 108-124: the value of the awaited
    [isUserJoinedInRoom] is dropped. *)
Definition sendEncryptedMessage (roomId message : string) : Prog unit :=
  try_catch
    (isUserJoinedInRoom roomId ;;
     sendEncryptedMessage_rest roomId message)
    sendEncryptedMessage_catch.

(** The listener of [getMessage], lines 141-150. *)
Definition getMessage_onTimeline (p : nat)
    (event : MatrixEvent) (room : Room) (toStartOfTimeline : bool)
  : Prog unit :=
  if toStartOfTimeline then Ret tt
  else if negb (ev_type event =? "m.room.message") then Ret tt
  else call (Resolve p (ev_body event)).

(** [getMessage], lines 139-152; [p] names the promise it returns.  An
    exception thrown by the (synchronous) executor rejects the promise. *)
Definition getMessage (p : nat) : Prog unit :=
  try_catch (call (On "Room.timeline" (GetMessageListener p)))
    (fun e => call (Reject p e)).

(** The "Event.decrypted" listener of [getMessageEncrypted], 174-181. *)
Definition getMessageEncrypted_onDecrypted (p : nat) (event : MatrixEvent)
  : Prog unit :=
  if (ev_type event =? "m.room.encrypted") && ev_isDecryptionFailure event
  then Throw (Error "Failed to decrypt message: ")
  else if ev_type event =? "m.room.message"
  then call (Resolve p (ev_body event))
  else Ret tt.

(** The "Event.decryption_failure" listener of [getMessageEncrypted],
    lines 188-191. *)
Definition getMessageEncrypted_onFailure (p : nat)
    (event : MatrixEvent) (err : exn) : Prog unit :=
  call (ConsoleError [LStr "Error decrypting event: "; LExn err]) ;;
  call (Reject p err).

(** The executor of the promise [p] returned by [getMessageEncrypted],
    lines 159-193.  The executor is an async function: what it throws is
    an unhandled rejection of its own promise and leaves [p] pending. *)
Definition getMessageEncrypted (p : nat) (roomId : string) : Prog unit :=
  isJoined <- isUserJoinedInRoom roomId ;;
  if negb (truthy_joined isJoined) then
    call (Reject p (JsReason "Client is not a member of the room")) ;;
    call (ConsoleLog [LStr "Client is not a member of the room"])
  else
    call (SetRoomEncryption roomId megolm) ;;
    encrypted <- call (IsRoomEncrypted roomId) ;;
    (if encrypted : bool then
       call (ConsoleLog [LStr "ROOM IS ENCRYPTED"]) ;;
       call (On "Event.decrypted" (GetMessageEncryptedListener p))
     else call (ConsoleLog [LStr "ERROR, NOT ENCRYPTED"])) ;;
    call (On "Event.decryption_failure"
            (GetMessageEncryptedFailureListener p)).

(** The listener of [messageListener], lines 213-225. *)
Definition messageListener_onTimeline (cb : nat) (roomId : string)
    (event : MatrixEvent) (room : Room) (toStartOfTimeline : bool)
  : Prog unit :=
  if toStartOfTimeline then Ret tt
  else if negb (ev_type event =? "m.room.message") then Ret tt
  else if negb (roomId =? room_roomId room)
  then Throw (Error "Error: wrong room")
  else call (Callback cb (ev_body event)).

(** [messageListener], lines 212-226; [cb] names [onMessageCallback]. *)
Definition messageListener (cb : nat) (roomId : string) : Prog unit :=
  call (On "Room.timeline" (MessageListenerListener cb roomId)).

(** The listener of [messageListenerEncrypted], lines 239-248. *)
Definition messageListenerEncrypted_onDecrypted (cb : nat) (roomId : string)
    (event : MatrixEvent) : Prog unit :=
  if opt_str_eqb (ev_roomId event) (Some roomId) then
    if (ev_type event =? "m.room.encrypted") && ev_isDecryptionFailure event
    then Throw (Error "Failed to decrypt message: ")
    else if ev_type event =? "m.room.message"
    then call (Callback cb (ev_body event))
    else Ret tt
  else Ret tt.

(** The [catch] at the end of the inner chain, lines 249-251. *)
Definition messageListenerEncrypted_inner_catch (er : exn) : Prog unit :=
  call (ConsoleError [LStr "Error while setting room encryption:"; LExn er]).

(** The [catch] at the end of the outer chain, lines 252-254. *)
Definition messageListenerEncrypted_outer_catch (er : exn) : Prog unit :=
  call (ConsoleError
          [LStr "Error while checking user's room join status:"; LExn er]).

(** What the [then] callback of the outer chain does, lines 236-251.
    The call [client.setRoomEncryption(..)] is evaluated inside that
    callback: when it throws on the spot the exception leaves the
    callback.  When it returns a promise, the inner chain
    [.then(..).catch(..)] handles the rejection of that promise and what
    the registration throws. *)
Definition messageListenerEncrypted_then (cb : nat) (roomId : string)
  : Prog unit :=
  settled <- call (SetRoomEncryptionPromise roomId megolm) ;;
  try_catch
    (match settled with
     | Ok _ =>
         call (On "Event.decrypted"
                 (MessageListenerEncryptedListener cb roomId))
     | Err er => Throw er
     end)
    messageListenerEncrypted_inner_catch.

(** [messageListenerEncrypted], lines 233-255: the promise chain
    [isUserJoinedInRoom(..).then(..).catch(..)]; its [catch] receives the
    rejection of the membership check and whatever the [then] callback
    throws. *)
Definition messageListenerEncrypted (cb : nat) (roomId : string) : Prog unit :=
  try_catch
    (isUserJoinedInRoom roomId ;;
     messageListenerEncrypted_then cb roomId)
    messageListenerEncrypted_outer_catch.

(** [getMyPowerLevel], lines 278-287. *)
Definition getMyPowerLevel (roomId : string) : Prog Z :=
  try_catch
    (call (RoomInitialSync roomId 10) ;;
     room <- call (GetRoom roomId) ;;
     match room with
     | None => Throw (TypeError "null" "getMember")
     | Some r =>
         uid <- call GetUserId ;;
         match getMember r uid with
         | None => Throw (TypeError "null" "powerLevel")
         | Some me => Ret (powerLevel me)
         end
     end)
    (fun error =>
       message <- read_message error ;;
       Throw (Error_of message)).

(** [inviteUser], lines 262-269. *)
Definition inviteUser (roomId userId : string) : Prog unit :=
  powerLevels <- call (GetStateEvent roomId "m.room.power_levels" "") ;;
  myPowerLevel <- getMyPowerLevel roomId ;;
  if js_gt (invite powerLevels) myPowerLevel then
    Throw (Error "Error: You dont have permission to invite users")
  else call (Invite roomId userId).

(** [getClient] and [setClient], lines 336-347. *)
Definition getClient : Prog (option ClientObj) := call ReadClient.
Definition setClient (newClient : option ClientObj) : Prog unit :=
  call (WriteClient newClient).

(** The arguments the SDK passes to a listener, per event name, and the
    body each registered closure runs on them. *)
Inductive EventArgs : Type :=
| MembershipArgs (event : MatrixEvent) (member : RoomMember)
| TimelineArgs (event : MatrixEvent) (room : Room) (toStartOfTimeline : bool)
| DecryptedArgs (event : MatrixEvent)
| DecryptionFailureArgs (event : MatrixEvent) (err : exn).

Definition listener_body (l : Listener) (a : EventArgs)
  : option (Prog unit) :=
  match l, a with
  | AutoJoinListener, MembershipArgs _ member => Some (autoJoin member)
  | GetMessageListener p, TimelineArgs e r b =>
      Some (getMessage_onTimeline p e r b)
  | GetMessageEncryptedListener p, DecryptedArgs e =>
      Some (getMessageEncrypted_onDecrypted p e)
  | GetMessageEncryptedFailureListener p, DecryptionFailureArgs e err =>
      Some (getMessageEncrypted_onFailure p e err)
  | MessageListenerListener cb roomId, TimelineArgs e r b =>
      Some (messageListener_onTimeline cb roomId e r b)
  | MessageListenerEncryptedListener cb roomId, DecryptedArgs e =>
      Some (messageListenerEncrypted_onDecrypted cb roomId e)
  | _, _ => None
  end.

Definition callback_body (cb : AuthCallback) : Prog AuthDict :=
  match cb with
  | AuthUploadDeviceSigningKeys data => authUploadDeviceSigningKeys data
  end.

(* ------------------------------------------------------------------ *)
(** ** Observations on traces *)

Definition auth_failure (e : Event) : option exn :=
  match e with
  | Ev c r =>
      match c, r with
      | GetCredentialsWithPassword _ _ _, Err x => Some x
      | _, _ => None
      end
  end.

(** Calls that bring a client up: creating it, initialising its crypto,
    starting its sync loop, bootstrapping cross-signing. *)
Definition is_startup (e : Event) : bool :=
  match e with
  | Ev c _ =>
      match c with
      | CreateClient _ | InitCrypto | StartClient _
      | BootstrapCrossSigning _ => true
      | _ => false
      end
  end.




Definition joined_room (e : Event) : option string :=
  match e with
  | Ev c _ =>
      match c with
      | JoinRoom roomId => Some roomId
      | _ => None
      end
  end.

Definition invited (e : Event) : option (string * string) :=
  match e with
  | Ev c _ =>
      match c with
      | Invite roomId userId => Some (roomId, userId)
      | _ => None
      end
  end.

(** A value handed to the caller: through the callback [cb] or by
    resolving the promise [p]. *)
Definition delivered (e : Event) : option (option string) :=
  match e with
  | Ev c _ =>
      match c with
      | Callback _ v => Some v
      | Resolve _ v => Some v
      | _ => None
      end
  end.

(** A failure handed to the caller: a rejection of the promise. *)
Definition rejected (e : Event) : option exn :=
  match e with
  | Ev c _ =>
      match c with
      | Reject _ x => Some x
      | _ => None
      end
  end.

(** [collect f tr]: the observations [f] makes along [tr], in order. *)
Fixpoint collect {B} (f : Event -> option B) (tr : list Event) : list B :=
  match tr with
  | [] => []
  | e :: tr' =>
      match f e with
      | Some b => b :: collect f tr'
      | None => collect f tr'
      end
  end.

(** Events of the prologue of [runClient] (lines 23-31). *)
Definition is_prologue (e : Event) : bool :=
  match e with
  | Ev c _ =>
      match c with
      | OlmInit | ReadFileSync _ | JsonParse _ => true
      | _ => false
      end
  end.

Definition auth_args (e : Event)
  : option (option string * option string * option string) :=
  match e with
  | Ev c _ =>
      match c with
      | GetCredentialsWithPassword u p h => Some (u, p, h)
      | _ => None
      end
  end.

(** The exception a call answered with. *)
Definition failure (e : Event) : option exn :=
  match e with
  | Ev _ r =>
      match r with
      | Err x => Some x
      | Ok _ => None
      end
  end.

(** A call of the user's callback [onMessageCallback]. *)
Definition called_back (e : Event) : option (option string) :=
  match e with
  | Ev c _ =>
      match c with
      | Callback _ v => Some v
      | _ => None
      end
  end.

Definition last_event (tr : list Event) : option Event := hd_error (rev tr).

(** The two steps of lines 61-75 that matter to the auto-join listener:
    its registration and the start of the sync loop. *)
Inductive Phase : Type :=
| AutoJoinRegistered
| ClientStarted.

Definition phase (e : Event) : option Phase :=
  match e with
  | Ev c _ =>
      match c with
      | On name AutoJoinListener =>
          if name =? "RoomMember.membership" then Some AutoJoinRegistered
          else None
      | StartClient _ => Some ClientStarted
      | _ => None
      end
  end.

(** Calls that change the variable [client] or the trust flags of the
    object it holds. *)
Definition configures {R} (c : Call R) : bool :=
  match c with
  | WriteClient _
  | SetGlobalBlacklistUnverifiedDevices _
  | SetGlobalErrorOnUnknownDevices _ => true
  | _ => false
  end.

(** Programs all of whose calls satisfy [ok]. *)
Inductive only_calls {A} (ok : forall R, Call R -> bool) : Prog A -> Prop :=
| only_Ret (a : A) : only_calls ok (Ret a)
| only_Throw (e : exn) : only_calls ok (Throw e)
| only_Vis R (c : Call R) (k : result R -> Prog A) :
    ok R c = true ->
    (forall r, only_calls ok (k r)) ->
    only_calls ok (Vis c k).

(** Programs that issue no configuring call. *)
Definition keeps_client {A} (p : Prog A) : Prop :=
  only_calls (fun R c => negb (configures c)) p.

(* ------------------------------------------------------------------ *)
(** ** A scripted oracle for concrete runs *)

Record Scenario : Type := {
  sc_auth : result LoginResult;
  sc_crossSigningId : option string;
  sc_userId : option string;
  sc_room : option Room;
  sc_send : result string;
  sc_powerLevels : PowerLevels
}.

(** Answers every call from the scenario; the SDK's own defaults for the
    two trust flags are blacklist off, error-on-unknown on. *)
Definition scripted : Oracle Scenario :=
  fun R c w =>
    (match c in Call R return result R with
     | ReadClient => Ok None
     | WriteClient _ => Ok tt
     | ConsoleLog _ => Ok tt
     | ConsoleError _ => Ok tt
     | Resolve _ _ => Ok tt
     | Reject _ _ => Ok tt
     | JsonStringify m => Ok m
     | JsonParse _ => Ok None
     | OlmInit => Ok tt
     | ReadFileSync _ => Ok ""
     | GetCredentialsWithPassword _ _ _ => sc_auth w
     | CreateClient op =>
         Ok {| opts := op;
               globalBlacklistUnverifiedDevices := false;
               globalErrorOnUnknownDevices := true |}
     | Callback _ _ => Ok tt
     | InitCrypto => Ok tt
     | On _ _ => Ok tt
     | SetGlobalBlacklistUnverifiedDevices _ => Ok tt
     | SetGlobalErrorOnUnknownDevices _ => Ok tt
     | IsCryptoEnabled => Ok true
     | StartClient _ => Ok tt
     | GetCrossSigningId => Ok (sc_crossSigningId w)
     | BootstrapCrossSigning _ => Ok tt
     | Login _ _ _ => Ok {| access_token := Some "fresh-token" |}
     | GetUserId => Ok (sc_userId w)
     | GetDeviceId => Ok (Some "DEVICE")
     | GetRoom _ => Ok (sc_room w)
     | SetRoomEncryption _ _ => Ok tt
     | SetRoomEncryptionPromise _ _ => Ok (Ok tt)
     | IsRoomEncrypted _ => Ok true
     | SendEvent _ _ _ _ => sc_send w
     | GetStateEvent _ _ _ => Ok (sc_powerLevels w)
     | RoomInitialSync _ _ => Ok tt
     | Invite _ _ => Ok tt
     | JoinRoom _ => Ok tt
     end, w).

Definition alice : string := "@alice:example.org".
Definition lobby : string := "!lobby:example.org".

Definition alice_member : RoomMember :=
  {| member_userId := alice; member_roomId := lobby;
     membership := Some "join"; powerLevel := 50 |}.

Definition lobby_room : Room :=
  {| room_roomId := lobby; room_members := [alice_member] |}.

Definition alice_login : LoginResult :=
  {| lr_accessToken := "cached-token"; lr_userId := alice;
     lr_deviceId := "DEVICE" |}.

Definition alice_cred : CredObj :=
  {| homeserverUrl := Some "https://example.org";
     username := Some "alice";
     password := Some "secret" |}.

Definition calm : Scenario :=
  {| sc_auth := Ok alice_login;
     sc_crossSigningId := None;
     sc_userId := Some alice;
     sc_room := Some lobby_room;
     sc_send := Ok "$event";
     sc_powerLevels := {| invite := Some 50%Z |} |}.

Definition alice_client : ClientObj :=
  {| opts := {| baseUrl := Some "https://example.org";
                accessToken := "cached-token";
                userId := alice;
                deviceId := "DEVICE";
                store := memoryStore;
                opt_cryptoStore := cryptoStore;
                ignore_unknown_devices := true |};
     globalBlacklistUnverifiedDevices := false;
     globalErrorOnUnknownDevices := false |}.

Definition fresh (w : Scenario) : State Scenario :=
  {| client := None; world := w |}.

Definition running (w : Scenario) : State Scenario :=
  {| client := Some alice_client; world := w |}.


Definition auth_down : Scenario :=
  {| sc_auth := Err (JsError "M_FORBIDDEN" "Invalid username or password");
     sc_crossSigningId := None;
     sc_userId := Some alice;
     sc_room := Some lobby_room;
     sc_send := Ok "$event";
     sc_powerLevels := {| invite := Some 50%Z |} |}.

(** The send is refused because an unverified device is in the room. *)
Definition policy_violation : exn :=
  JsError "PolicyViolation" "blocked on unverified device".

Definition blocked : Scenario :=
  {| sc_auth := Ok alice_login;
     sc_crossSigningId := None;
     sc_userId := Some alice;
     sc_room := Some lobby_room;
     sc_send := Err policy_violation;
     sc_powerLevels := {| invite := Some 50%Z |} |}.

(** The client knows nothing of the room: it is not joined. *)
Definition stranger : Scenario :=
  {| sc_auth := Ok alice_login;
     sc_crossSigningId := None;
     sc_userId := Some alice;
     sc_room := None;
     sc_send := Ok "$event";
     sc_powerLevels := {| invite := Some 50%Z |} |}.

(** Inviting needs power level 100 in the room. *)
Definition moderated : Scenario :=
  {| sc_auth := Ok alice_login;
     sc_crossSigningId := None;
     sc_userId := Some alice;
     sc_room := Some lobby_room;
     sc_send := Ok "$event";
     sc_powerLevels := {| invite := Some 100%Z |} |}.

Definition undecryptable : MatrixEvent :=
  {| ev_type := "m.room.encrypted";
     ev_roomId := Some lobby;
     ev_body := None;
     ev_isDecryptionFailure := true |}.

Definition hello : MatrixEvent :=
  {| ev_type := "m.room.message";
     ev_roomId := Some lobby;
     ev_body := Some "hello";
     ev_isDecryptionFailure := false |}.

Definition invitation : RoomMember :=
  {| member_userId := alice; member_roomId := lobby;
     membership := Some "invite"; powerLevel := 0 |}.

(* ------------------------------------------------------------------ *)
(** ** The room-encryption gate behind [client.setRoomEncryption]

    [setRoomEncryption] and [isRoomEncrypted] belong to the SDK, whose
    code is not part of the module.  The specification describes what it
    expects of them (section 4.3, [ensureRoomEncrypted]); this is that
    description, as an oracle that can answer the module's calls. *)

(** RoomEncryptionPolicy of the specification, without its time stamp. *)
Record RoomEncryptionPolicy : Type := {
  pol_roomId : string;
  pol_algorithm : string
}.

Record GateWorld (W : Type) : Type := {
  policies : list RoomEncryptionPolicy;
  stateChangeRequests : list RoomEncryptionPolicy;
  behind : W
}.

Definition policy_of (roomId : string) (ps : list RoomEncryptionPolicy)
  : option RoomEncryptionPolicy :=
  find (fun p => pol_roomId p =? roomId) ps.

(** Modelled from the spec: the SDK's [setRoomEncryption], absent from
    src/.  "If the room's state already declares an algorithm, adopt it;
    otherwise, applying encryption is itself a privileged state-change
    request proxied to the external room-state API." *)
Definition ensureRoomEncrypted {W} (roomId algorithm : string)
    (g : GateWorld W) : RoomEncryptionPolicy * GateWorld W :=
  match policy_of roomId (policies g) with
  | Some p => (p, g)
  | None =>
      let p := {| pol_roomId := roomId; pol_algorithm := algorithm |} in
      (p, {| policies := p :: policies g;
             stateChangeRequests := (stateChangeRequests g ++ [p])%list;
             behind := behind g |})
  end.

(** Modelled from the spec: an SDK whose [setRoomEncryption] is
    [ensureRoomEncrypted] and whose [isRoomEncrypted] reads the recorded
    policies; every other call is answered by [base], which sees neither
    the policies nor the requests. *)
Definition gate_oracle {W} (base : Oracle W) : Oracle (GateWorld W) :=
  fun R c g =>
    match c in Call R return result R * GateWorld W with
    | SetRoomEncryption roomId algorithm =>
        (Ok tt, snd (ensureRoomEncrypted roomId algorithm g))
    | IsRoomEncrypted roomId =>
        (Ok (is_some (policy_of roomId (policies g))), g)
    | c' =>
        let (r, w') := base _ c' (behind g) in
        (r, {| policies := policies g;
               stateChangeRequests := stateChangeRequests g;
               behind := w' |})
    end.

(** Calls that enable encryption, if at all, on [roomId] only. *)
Definition encrypts_only (roomId : string) R (c : Call R) : bool :=
  match c with
  | SetRoomEncryption r _ => r =? roomId
  | _ => true
  end.

Definition lobby_policy : RoomEncryptionPolicy :=
  {| pol_roomId := lobby; pol_algorithm := megolm |}.

Definition encrypted_lobby : State (GateWorld Scenario) :=
  {| client := Some alice_client;
     world := {| policies := [lobby_policy];
                 stateChangeRequests := [lobby_policy];
                 behind := calm |} |}.

(* ------------------------------------------------------------------ *)
(** ** Further observations on traces *)

(** The listener registered, when the event is a [client.on]. *)
Definition registered (e : Event) : option (string * Listener) :=
  match e with
  | Ev c _ =>
      match c with
      | On name l => Some (name, l)
      | _ => None
      end
  end.

(** What console.error was called with. *)
Definition printed_error (e : Event) : option (list LogArg) :=
  match e with
  | Ev c _ =>
      match c with
      | ConsoleError args => Some args
      | _ => None
      end
  end.

(** The client object [createClient] returned. *)
Definition created (e : Event) : option ClientObj :=
  match e with
  | Ev c r =>
      match c in Call R return result R -> option ClientObj with
      | CreateClient _ => fun r =>
          match r with
          | Ok obj => Some obj
          | Err _ => None
          end
      | _ => fun _ => None
      end r
  end.

(** What [isCryptoEnabled] answered. *)
Definition crypto_enabled (e : Event) : option bool :=
  match e with
  | Ev c r =>
      match c in Call R return result R -> option bool with
      | IsCryptoEnabled => fun r =>
          match r with
          | Ok b => Some b
          | Err _ => None
          end
      | _ => fun _ => None
      end r
  end.

Definition started (e : Event) : option Z :=
  match e with
  | Ev c _ =>
      match c with
      | StartClient limit => Some limit
      | _ => None
      end
  end.

(** The steps of an encrypted send: encryption enabled on a room (the
    call returned normally), an event handed to [sendEvent]. *)
Inductive SendStep : Type :=
| EncryptionEnabled (roomId algorithm : string)
| EventSent (roomId type body msgtype : string).

Definition send_step (e : Event) : option SendStep :=
  match e with
  | Ev c r =>
      match c with
      | SetRoomEncryption roomId algorithm =>
          if succeeded r then Some (EncryptionEnabled roomId algorithm)
          else None
      | SendEvent roomId type body msgtype =>
          Some (EventSent roomId type body msgtype)
      | _ => None
      end
  end.

(** Encryption enabled through the promise chain of line 236: the call
    returned a promise and the promise was fulfilled. *)
Definition enabled_by_promise (e : Event) : option (string * string) :=
  match e with
  | Ev c r =>
      match c in Call R return result R -> option (string * string) with
      | SetRoomEncryptionPromise roomId algorithm => fun r =>
          match r with
          | Ok (Ok _) => Some (roomId, algorithm)
          | _ => None
          end
      | _ => fun _ => None
      end r
  end.

(** The rejection reason of the promise of line 236. *)
Definition promise_rejection (e : Event) : option exn :=
  match e with
  | Ev c r =>
      match c in Call R return result R -> option exn with
      | SetRoomEncryptionPromise _ _ => fun r =>
          match r with
          | Ok (Err x) => Some x
          | _ => None
          end
      | _ => fun _ => None
      end r
  end.

(** What a failed [client.on] threw. *)
Definition registration_failure (e : Event) : option exn :=
  match e with
  | Ev c r =>
      match c with
      | On _ _ =>
          match r with
          | Err x => Some x
          | Ok _ => None
          end
      | _ => None
      end
  end.

(** What JSON.stringify returned. *)
Definition stringified (e : Event) : option string :=
  match e with
  | Ev c r =>
      match c in Call R return result R -> option string with
      | JsonStringify _ => fun r =>
          match r with
          | Ok text => Some text
          | Err _ => None
          end
      | _ => fun _ => None
      end r
  end.

(** [isRoomEncrypted] answered true. *)
Definition room_encrypted (e : Event) : bool :=
  match e with
  | Ev c r =>
      match c in Call R return result R -> bool with
      | IsRoomEncrypted _ => fun r =>
          match r with
          | Ok b => b
          | Err _ => false
          end
      | _ => fun _ => false
      end r
  end.

(** Calls that handle the user's credentials or create a client. *)
Definition uses_credentials R (c : Call R) : bool :=
  match c with
  | ReadFileSync _ | JsonParse _ | GetCredentialsWithPassword _ _ _
  | CreateClient _ | Login _ _ _ | BootstrapCrossSigning _ => true
  | _ => false
  end.

Definition credential_event (e : Event) : bool :=
  match e with
  | Ev c _ => uses_credentials c
  end.

(** The event comes from a call that [ok] permits. *)
Definition permitted_event (ok : forall R, Call R -> bool) (e : Event)
  : bool :=
  match e with
  | Ev c _ => ok _ c
  end.

Definition no_credentials R (c : Call R) : bool := negb (uses_credentials c).

(** The required properties that are falsy in both the file and the
    object. *)
Definition lacking (fileData credentials : option CredObj) : list string :=
  filter (fun prop => negb (truthy_str (opt_prop fileData prop))
                      && negb (truthy_str (opt_prop credentials prop)))
         required_properties.

(** The error of lines 19-21. *)
Definition no_arguments_error : exn :=
  Error "Error: must provide either a file path or a object with username, password and homeserverUrl".

(** An oracle whose credentials file parses to [f]. *)
Definition with_file {W} (f : option CredObj) (o : Oracle W) : Oracle W :=
  fun R c w =>
    match c in Call R return result R * W with
    | JsonParse _ => (Ok f, w)
    | c' => o _ c' w
    end.

(** An oracle whose SDK fails to initialise its crypto. *)
Definition without_crypto {W} (o : Oracle W) : Oracle W :=
  fun R c w =>
    match c in Call R return result R * W with
    | InitCrypto => (Err (Error "olm is not available"), w)
    | c' => o _ c' w
    end.

(** An oracle whose initial sync of a room fails with [x]. *)
Definition sync_fails {W} (x : exn) (o : Oracle W) : Oracle W :=
  fun R c w =>
    match c in Call R return result R * W with
    | RoomInitialSync _ _ => (Err x, w)
    | c' => o _ c' w
    end.

(** An oracle whose [client.setRoomEncryption], called for its promise,
    answers [r]: it throws on the spot ([Err]), or returns a promise that
    is rejected ([Ok (Err _)]). *)
Definition encryption_answers {W} (r : result (result unit))
    (o : Oracle W) : Oracle W :=
  fun R c w =>
    match c in Call R return result R * W with
    | SetRoomEncryptionPromise _ _ => (r, w)
    | c' => o _ c' w
    end.

(** A file that names the user but holds no password. *)
Definition file_without_password : CredObj :=
  {| homeserverUrl := Some "https://example.org";
     username := Some "alice";
     password := None |}.

(** An object that only brings the password. *)
Definition password_only : CredObj :=
  {| homeserverUrl := None; username := None; password := Some "secret" |}.

(** The login promise is rejected with null. *)
Definition auth_null : Scenario :=
  {| sc_auth := Err JsNull;
     sc_crossSigningId := None;
     sc_userId := Some alice;
     sc_room := Some lobby_room;
     sc_send := Ok "$event";
     sc_powerLevels := {| invite := Some 50%Z |} |}.

(** The client is not among the members of the room, where anybody may
    invite. *)
Definition empty_lobby : Room :=
  {| room_roomId := lobby; room_members := [] |}.

Definition outsider : Scenario :=
  {| sc_auth := Ok alice_login;
     sc_crossSigningId := None;
     sc_userId := Some alice;
     sc_room := Some empty_lobby;
     sc_send := Ok "$event";
     sc_powerLevels := {| invite := Some 0%Z |} |}.

(** The power-levels event carries no invite level. *)
Definition unrestricted : Scenario :=
  {| sc_auth := Ok alice_login;
     sc_crossSigningId := None;
     sc_userId := Some alice;
     sc_room := Some lobby_room;
     sc_send := Ok "$event";
     sc_powerLevels := {| invite := None |} |}.

(** A message of another room. *)
Definition elsewhere : MatrixEvent :=
  {| ev_type := "m.room.message";
     ev_roomId := Some "!other:example.org";
     ev_body := Some "psst";
     ev_isDecryptionFailure := false |}.

Definition other_room : Room :=
  {| room_roomId := "!other:example.org"; room_members := [] |}.

(* ------------------------------------------------------------------ *)
(** ** Proof automation

    [walk o] symbolically executes the program in the goal: it asks the
    oracle [o] for the answer to the next call and splits on the answer,
    and on every value the program branches on. *)

Ltac ask o :=
  match goal with
  | |- context [o ?R ?c ?w] =>
      let r := fresh "r" in
      let w' := fresh "w" in
      let E := fresh "E" in
      destruct (o R c w) as [[r | r] w'] eqn:E
  end.

Ltac walk o :=
  repeat (cbn;
          first [ progress unfold step, external
                | ask o
                | match goal with
                  | |- context [match ?x with _ => _ end] =>
                      is_var x; destruct x
                  | |- context [match getMember ?r ?u with _ => _ end] =>
                      destruct (getMember r u)
                  | |- context [truthy_str ?x] => is_var x; destruct x
                  | |- context [nullish ?x] => is_var x; destruct x
                  | |- context [String.eqb ?a ?b] =>
                      destruct (String.eqb a b) eqn:?
                  end ]);
  cbn.

(** Closes equations between computed options. *)
Ltac options :=
  repeat match goal with
         | H : nullish _ = _ |- _ => progress cbn in H
         | H : Some _ = Some _ |- _ => injection H as <-
         | H : None = Some _ |- _ => discriminate H
         | H : Some _ = None |- _ => discriminate H
         end.

(** Membership in a list that has been computed. *)
Ltac members :=
  repeat match goal with
         | H : In _ [] |- _ => contradiction H
         | H : In _ (_ :: _) |- _ => destruct H as [<- | H]
         | H : _ = _ \/ _ |- _ => destruct H as [<- | H]
         | H : False |- _ => contradiction H
         end.

(* ------------------------------------------------------------------ *)
(** ** Laws of the interpreter *)

Section Laws.

Variable W : Type.
Variable o : Oracle W.

Lemma after_nil A (out : Outcome W A) : after [] out = out.
Proof. destruct out; reflexivity. Qed.

Lemma after_after A (e1 e2 : list Event) (out : Outcome W A) :
  after e1 (after e2 out) = after (e1 ++ e2) out.
Proof. unfold after; cbn. now rewrite app_assoc. Qed.

Lemma run_bind A B (p : Prog A) (f : A -> Prog B) (s : State W) :
  run o (bind p f) s =
  match res (run o p s) with
  | Ok a => after (trace (run o p s)) (run o (f a) (final (run o p s)))
  | Err e => {| res := Err e;
                final := final (run o p s);
                trace := trace (run o p s) |}
  end.
Proof.
  revert s; induction p as [a | e | R c k IH]; intros s; cbn.
  - now rewrite after_nil.
  - reflexivity.
  - destruct (step o c s) as [[r s'] evs]. rewrite IH. cbn.
    destruct (res (run o (k r) s')); cbn.
    + now rewrite after_after.
    + reflexivity.
Qed.

Lemma run_try_catch A (p : Prog A) (h : exn -> Prog A) (s : State W) :
  run o (try_catch p h) s =
  match res (run o p s) with
  | Ok a => run o p s
  | Err e => after (trace (run o p s)) (run o (h e) (final (run o p s)))
  end.
Proof.
  revert s; induction p as [a | e | R c k IH]; intros s; cbn.
  - reflexivity.
  - now rewrite after_nil.
  - destruct (step o c s) as [[r s'] evs]. rewrite IH. cbn.
    destruct (res (run o (k r) s')); cbn.
    + reflexivity.
    + now rewrite after_after.
Qed.

Lemma collect_app B (f : Event -> option B) (t1 t2 : list Event) :
  collect f (t1 ++ t2) = (collect f t1 ++ collect f t2)%list.
Proof.
  induction t1 as [| e t1 IH]; cbn; [reflexivity |].
  destruct (f e); cbn; now rewrite IH.
Qed.

End Laws.

(* ------------------------------------------------------------------ *)
(** ** Programs restricted to some calls *)

Section Frame.

Variable W : Type.
Variable o : Oracle W.

Lemma opt_str_eqb_eq (a b : option string) :
  opt_str_eqb a b = true <-> a = b.
Proof.
  destruct a as [x |], b as [y |]; cbn; split; intros H;
    try discriminate; try reflexivity.
  - apply String.eqb_eq in H. now subst.
  - injection H as ->. apply String.eqb_refl.
Qed.

Variable ok : forall R, Call R -> bool.

Lemma only_bind A B (p : Prog A) (f : A -> Prog B) :
  only_calls ok p -> (forall a, only_calls ok (f a)) ->
  only_calls ok (bind p f).
Proof.
  intros Hp Hf. induction Hp; cbn; auto using only_Throw.
  constructor; auto.
Qed.

Lemma only_try_catch A (p : Prog A) (h : exn -> Prog A) :
  only_calls ok p -> (forall e, only_calls ok (h e)) ->
  only_calls ok (try_catch p h).
Proof.
  intros Hp Hh. induction Hp; cbn; auto using only_Ret.
  constructor; auto.
Qed.

Lemma only_call R (c : Call R) :
  ok c = true -> only_calls ok (call c).
Proof.
  intros H. constructor; [assumption |].
  intros [v | e]; constructor.
Qed.

(** A property of the state that every permitted call preserves holds
    at the end of a run of permitted calls. *)
Lemma run_invariant (I : State W -> Prop) :
  (forall R (c : Call R) s,
      ok c = true -> I s -> I (snd (fst (step o c s)))) ->
  forall A (p : Prog A) s,
    only_calls ok p -> I s -> I (final (run o p s)).
Proof.
  intros Hstep A p s H; revert s.
  induction H as [a | e | R c k Hc _ IH]; intros s Hs; cbn;
    try assumption.
  pose proof (Hstep R c s Hc Hs) as Hs'.
  destruct (step o c s) as [[r s'] evs]; cbn in *.
  now apply IH.
Qed.

End Frame.

Section ClientFrame.

Variable W : Type.
Variable o : Oracle W.

Lemma step_keeps_client R (c : Call R) (s : State W) :
  negb (configures c) = true ->
  client (snd (fst (step o c s))) = client s.
Proof.
  destruct s as [[obj |] w]; destruct c; cbn; intros H;
    try discriminate H; try reflexivity.
  all: unfold step, external; cbn; try reflexivity.
  all: ask o; reflexivity.
Qed.

Lemma run_keeps_client A (p : Prog A) (s : State W) :
  keeps_client p -> client (final (run o p s)) = client s.
Proof.
  intros H.
  apply (@run_invariant W o (fun R c => negb (configures c))
           (fun s' => client s' = client s)); auto.
  intros R c s' Hc Hs. now rewrite step_keeps_client.
Qed.

End ClientFrame.

(** Discharges [only_calls] goals over programs written with [bind],
    [try_catch] and [call]. *)
Ltac permitted :=
  repeat first
    [ apply only_bind; [| intros ?]
    | apply only_try_catch; [| intros ?]
    | apply only_call; cbn; rewrite ?String.eqb_refl; reflexivity
    | apply only_Ret
    | apply only_Throw
    | apply only_Vis; [cbn; rewrite ?String.eqb_refl; reflexivity | intros ?]
    | progress unfold read_message
    | match goal with
      | |- only_calls _ (match ?x with _ => _ end) => destruct x
      end ].

Ltac keeps := unfold keeps_client; permitted.

Section FrameOfTheModule.

Lemma keeps_isUserJoinedInRoom roomId :
  keeps_client (isUserJoinedInRoom roomId).
Proof. unfold isUserJoinedInRoom. keeps. Qed.






Lemma keeps_getMyPowerLevel roomId : keeps_client (getMyPowerLevel roomId).
Proof. unfold getMyPowerLevel, read_message. keeps. Qed.



Lemma keeps_callback cb : keeps_client (callback_body cb).
Proof. destruct cb; cbn. unfold authUploadDeviceSigningKeys. keeps. Qed.

(** The operations that enable encryption do so on their own room. *)
Lemma sendEncryptedMessage_encrypts_only roomId m :
  only_calls (encrypts_only roomId) (sendEncryptedMessage roomId m).
Proof.
  unfold sendEncryptedMessage, sendEncryptedMessage_rest,
    sendEncryptedMessage_catch, isUserJoinedInRoom.
  permitted.
Qed.

Lemma getMessageEncrypted_encrypts_only p roomId :
  only_calls (encrypts_only roomId) (getMessageEncrypted p roomId).
Proof. unfold getMessageEncrypted, isUserJoinedInRoom. permitted. Qed.

End FrameOfTheModule.

(* ------------------------------------------------------------------ *)
(** ** runClient *)

Section RunClientPrologue.

Variable W : Type.
Variable o : Oracle W.

Local Arguments runClient_try : simpl never.
Local Arguments runClient_catch : simpl never.
Local Arguments after : simpl never.
Local Arguments missingProperties : simpl never.
Local Arguments missing_message : simpl never.
Local Arguments select_data : simpl never.
Local Arguments Nat.ltb : simpl never.

(** Either [runClient] throws during its prologue, before it touches
    [client], or it reaches the [try] statement. *)
Lemma runClient_cases (s : State W) fp arg :
  let out := run o (runClient fp arg) s in
  (exists e, res out = Err e /\
             forallb is_prologue (trace out) = true /\
             client (final out) = client s) \/
  (exists data pre s1,
      out = after pre (run o (runClient_guarded data) s1) /\
      forallb is_prologue pre = true /\
      client s1 = client s).
Proof.
  unfold runClient, runClient_guarded.
  destruct (negb (truthy_str fp) && negb (is_some (default_credentials arg))).
  { left. eexists. cbn. repeat split. }
  destruct s as [[c |] w0].
  all: cbn; unfold step, external; cbn.
  all: ask o; cbn.
  all: try (left; eexists; unfold after; cbn; repeat split; fail).
  all: destruct fp as [path|]; cbn.
  all: try destruct (negb (path =? "")); cbn.
  all: try (unfold step, external; cbn; ask o; cbn).
  all: try (left; eexists; unfold after; cbn; repeat split; fail).
  all: try (unfold step, external; cbn; ask o; cbn).
  all: try (left; eexists; unfold after; cbn; repeat split; fail).
  all: match goal with |- context [Nat.ltb 0 ?n] => destruct (Nat.ltb 0 n) end.
  all: try (left; eexists; unfold after; cbn; repeat split; fail).
  all: right; rewrite ?after_after; do 3 eexists;
    (split; [ reflexivity | split; reflexivity ]).
Qed.

Lemma collect_prologue B (f : Event -> option B) (pre : list Event) :
  (forall e, is_prologue e = true -> f e = None) ->
  forallb is_prologue pre = true ->
  collect f pre = [].
Proof.
  intros Hf. induction pre as [| e pre IH]; cbn; [reflexivity |].
  intros H. apply andb_true_iff in H as [He Hpre].
  rewrite (Hf e He). auto.
Qed.

Lemma filter_prologue (p : Event -> bool) (pre : list Event) :
  (forall e, is_prologue e = true -> p e = false) ->
  forallb is_prologue pre = true ->
  filter p pre = [].
Proof.
  intros Hp. induction pre as [| e pre IH]; cbn; [reflexivity |].
  intros H. apply andb_true_iff in H as [He Hpre].
  rewrite (Hp e He). auto.
Qed.


Lemma last_event_app (pre tr : list Event) (e : Event) :
  last_event tr = Some e -> last_event (pre ++ tr) = Some e.
Proof.
  unfold last_event. rewrite rev_app_distr.
  destruct (rev tr); cbn; [discriminate | auto].
Qed.

End RunClientPrologue.

Section RunClient.

Variable W : Type.
Variable o : Oracle W.

(** No observation used below fires on a prologue event. *)
Ltac quiet :=
  let e := fresh "e" in
  let R := fresh "R" in
  let c := fresh "c" in
  let r := fresh "r" in
  intros e; destruct e as [R c r]; destruct c; cbn;
  solve [ reflexivity | discriminate ].

(** *** Authentication failure *)

Lemma guarded_auth_failure (data : option CredObj) (s : State W) :
let out := run o (runClient_guarded data) s in
forall x, In x (collect auth_failure (trace out)) ->
  client (final out) = client s /\
  length (collect auth_args (trace out)) = 1 /\
  filter is_startup (trace out) = [] /\
  (nullish x = None ->
   res out = Ok tt /\
   last_event (trace out)
   = Some (Ev (ConsoleError [LOptStr (err_message x)]) (Ok tt))) /\
  (forall receiver, nullish x = Some receiver ->
   res out = Err (TypeError receiver "message") /\
   collect printed_error (trace out) = []).
Proof.
  unfold runClient_guarded, runClient_try, runClient_catch,
    read_message.
  destruct s as [[c |] w0]; destruct data as [d |].
  all: walk o.
  all: intros x Hx; members.
  all: repeat split; intros; options; reflexivity.
Qed.

(** C4, as amended: when authentication fails, [runClient] attempts it
    once and stops starting up (no client is created, initialised or
    started, and the variable [client] keeps its value).  The failure
    itself is never surfaced: unless the rejection reason is null or
    undefined, the catch clause prints its message with console.error and
    the promise of [runClient] resolves; when the reason is null or
    undefined, reading [err.message] in the catch clause throws, nothing
    is printed, and [runClient] rejects with that TypeError. *)
Theorem runClient_auth_failure_swallowed (s : State W) fp arg (x : exn) :
  let out := run o (runClient fp arg) s in
  In x (collect auth_failure (trace out)) ->
  client (final out) = client s /\
  length (collect auth_args (trace out)) = 1 /\
  filter is_startup (trace out) = [] /\
  (nullish x = None ->
   res out = Ok tt /\
   last_event (trace out)
   = Some (Ev (ConsoleError [LOptStr (err_message x)]) (Ok tt))) /\
  (forall receiver, nullish x = Some receiver ->
   res out = Err (TypeError receiver "message") /\
   collect printed_error (trace out) = []).
Proof.
  intros out Hx; subst out.
  destruct (runClient_cases o s fp arg)
    as [(e & _ & Hpre & _) | (data & pre & s1 & Hout & Hpre & Hc)].
  - rewrite (collect_prologue auth_failure) in Hx by (quiet || assumption).
    contradiction.
  - rewrite Hout in *; cbn [after res final trace] in *.
    rewrite collect_app, (collect_prologue auth_failure) in Hx
      by (quiet || assumption).
    destruct (guarded_auth_failure data s1 x Hx) as (H1 & H2 & H3 & H4 & H5).
    rewrite !collect_app, filter_app.
    rewrite (collect_prologue auth_args), (filter_prologue is_startup),
      (collect_prologue printed_error) by (quiet || assumption).
    repeat split; cbn; try assumption.
    + congruence.
    + now apply H4.
    + apply last_event_app. now apply H4.
    + now apply (H5 receiver).
    + now apply (H5 receiver).
Qed.

(** *** Cross-signing bootstrap *)


(** *** Trust flags *)


(** *** Auto-join registration *)

Lemma guarded_phases (data : option CredObj) (s : State W) :
  let tr := collect phase (trace (run o (runClient_guarded data) s)) in
  tr = [] \/ tr = [AutoJoinRegistered]
  \/ tr = [AutoJoinRegistered; ClientStarted].
Proof.
  unfold runClient_guarded, runClient_try, runClient_catch,
    read_message.
  destruct s as [[c |] w0]; destruct data as [d |].
  all: walk o.
  all: auto.
Qed.

Lemma runClient_phases (s : State W) fp arg :
  let tr := collect phase (trace (run o (runClient fp arg) s)) in
  tr = [] \/ tr = [AutoJoinRegistered]
  \/ tr = [AutoJoinRegistered; ClientStarted].
Proof.
  cbv zeta.
  destruct (runClient_cases o s fp arg)
    as [(e & _ & Hpre & _) | (data & pre & s1 & Hout & Hpre & Hc)].
  - rewrite (collect_prologue phase) by (quiet || assumption). auto.
  - rewrite Hout; cbn [after res final trace].
    rewrite collect_app, (collect_prologue phase) by (quiet || assumption).
    apply guarded_phases.
Qed.



(** C8: a membership event makes the auto-join listener call
    [joinRoom] on the event's room exactly when the membership is
    "invite" and the invited user is the client's own user id; in every
    other case no join is issued.  [runClient] registers that listener
    on "RoomMember.membership" before it starts the client. *)
Theorem auto_join_own_invites (s : State W) (member : RoomMember)
    (c : ClientObj) (uid : option string) (w1 : W) :
  client s = Some c ->
  o GetUserId (world s) = (Ok uid, w1) ->
  let tr := trace (run o (autoJoin member) s) in
  (membership member = Some "invite" /\
   uid = Some (member_userId member) ->
   collect joined_room tr = [member_roomId member]) /\
  (~ (membership member = Some "invite" /\
      uid = Some (member_userId member)) ->
   collect joined_room tr = []) /\
  (forall event,
     listener_body AutoJoinListener (MembershipArgs event member)
     = Some (autoJoin member)) /\
  (forall (s0 : State W) fp arg,
     let phases := collect phase (trace (run o (runClient fp arg) s0)) in
     phases = [] \/ phases = [AutoJoinRegistered]
     \/ phases = [AutoJoinRegistered; ClientStarted]).
Proof.
  intros Hc Hu. cbv zeta.
  destruct s as [cl w0]; cbn in Hc, Hu; subst cl.
  unfold autoJoin.
  split; [| split; [| split]].
  - intros [Hm Hi]. subst uid.
    rewrite Hm. cbn.
    unfold step, external; cbn. rewrite Hu; cbn.
    rewrite String.eqb_refl. cbn. unfold external.
    ask o; reflexivity.
  - intros Hn.
    destruct (opt_str_eqb (membership member) (Some "invite")) eqn:Em;
      [| reflexivity].
    cbn -[opt_str_eqb]. unfold step, external; cbn -[opt_str_eqb].
    rewrite Hu; cbn -[opt_str_eqb].
    destruct (opt_str_eqb (Some (member_userId member)) uid) eqn:Ei;
      [| reflexivity].
    exfalso; apply Hn.
    apply opt_str_eqb_eq in Em, Ei. now split.
  - reflexivity.
  - intros s0 fp arg. apply runClient_phases.
Qed.

End RunClient.

(* ------------------------------------------------------------------ *)
(** ** Listeners *)

Section Listeners.

Variable W : Type.
Variable o : Oracle W.

(** C1, as amended: a decryption failure delivered on "Event.decrypted"
    makes the listener of [getMessageEncrypted], and the listener of
    [messageListenerEncrypted] when the event belongs to the listened
    room, throw Error("Failed to decrypt message: ") from inside the
    listener: nothing is resolved, rejected or passed to the callback.
    [messageListenerEncrypted] ignores such events of other rooms.  The
    only failure handed to the caller is the rejection made by the
    separate "Event.decryption_failure" listener of
    [getMessageEncrypted]. *)
Theorem decryption_failure_thrown_in_listener (s : State W)
    (p cb : nat) (roomId : string) (event : MatrixEvent) (err : exn) :
  ev_type event = "m.room.encrypted" ->
  ev_isDecryptionFailure event = true ->
  let thrown :=
    {| res := Err (Error "Failed to decrypt message: ");
       final := s; trace := [] |} in
  run o (getMessageEncrypted_onDecrypted p event) s = thrown /\
  (ev_roomId event = Some roomId ->
   run o (messageListenerEncrypted_onDecrypted cb roomId event) s
   = thrown) /\
  (ev_roomId event <> Some roomId ->
   run o (messageListenerEncrypted_onDecrypted cb roomId event) s
   = {| res := Ok tt; final := s; trace := [] |}) /\
  run o (getMessageEncrypted_onFailure p event err) s
  = {| res := Ok tt; final := s;
       trace := [Ev (ConsoleError [LStr "Error decrypting event: ";
                                   LExn err]) (Ok tt);
                 Ev (Reject p err) (Ok tt)] |}.
Proof.
  intros Ht Hf thrown; subst thrown.
  unfold getMessageEncrypted_onDecrypted,
    messageListenerEncrypted_onDecrypted.
  rewrite Ht, Hf. cbn -[opt_str_eqb].
  repeat split.
  - intros Hr. rewrite Hr. cbn. now rewrite String.eqb_refl.
  - intros Hr.
    destruct (opt_str_eqb (ev_roomId event) (Some roomId)) eqn:E;
      [| reflexivity].
    apply opt_str_eqb_eq in E. contradiction.
Qed.

(** C7: on a timeline event the listeners of [getMessage] and
    [messageListener] resolve, or call the callback, only when the event
    is live ([toStartOfTimeline] false) and of type "m.room.message", and
    what they hand over is the body of the event's content.  Every other
    event is dropped without any call.  A live message is always resolved
    by [getMessage]; [messageListener] passes it to the callback when it
    comes from the listened room. *)
Theorem timeline_listeners_filter (s : State W) (p cb : nat)
    (roomId : string) (event : MatrixEvent) (room : Room)
    (toStartOfTimeline : bool) :
  let g := run o (getMessage_onTimeline p event room toStartOfTimeline) s in
  let m := run o (messageListener_onTimeline cb roomId event room
                    toStartOfTimeline) s in
  (forall v, In v (collect delivered (trace g)) ->
     toStartOfTimeline = false /\
     ev_type event = "m.room.message" /\
     v = ev_body event) /\
  (forall v, In v (collect delivered (trace m)) ->
     toStartOfTimeline = false /\
     ev_type event = "m.room.message" /\
     v = ev_body event) /\
  (toStartOfTimeline = true \/ ev_type event <> "m.room.message" ->
   g = {| res := Ok tt; final := s; trace := [] |} /\
   m = {| res := Ok tt; final := s; trace := [] |}) /\
  (toStartOfTimeline = false -> ev_type event = "m.room.message" ->
   collect delivered (trace g) = [ev_body event] /\
   (roomId = room_roomId room ->
    collect delivered (trace m) = [ev_body event])).
Proof.
  cbv zeta.
  unfold getMessage_onTimeline, messageListener_onTimeline.
  destruct toStartOfTimeline.
  { cbn; repeat split; intros; try contradiction; discriminate. }
  destruct (ev_type event =? "m.room.message") eqn:Et; cbn.
  - apply String.eqb_eq in Et.
    split; [| split; [| split]].
    + intros v [<- | []]. auto.
    + destruct (roomId =? room_roomId room); cbn; [| intros v []].
      unfold step, external; cbn. ask o; cbn; intros v [<- | []]; auto.
    + intros [H | H]; [discriminate H | contradiction].
    + intros _ _. split; [reflexivity |].
      intros ->. rewrite String.eqb_refl. cbn.
      unfold step, external; cbn. ask o; reflexivity.
  - apply String.eqb_neq in Et.
    cbn; repeat split; intros; contradiction.
Qed.

End Listeners.

(* ------------------------------------------------------------------ *)
(** ** sendEncryptedMessage *)

Section Send.

Variable W : Type.
Variable o : Oracle W.

(** C2, as amended: [sendEncryptedMessage] never fails towards its
    caller.  Whatever a call made on the way answers, the promise
    resolves; when a call throws or rejects (a send refused for policy
    reasons included), the exception is the last thing printed with
    console.error and nothing else happens. *)
Theorem sendEncryptedMessage_swallows_errors (s : State W)
    (roomId message : string) :
  let out := run o (sendEncryptedMessage roomId message) s in
  res out = Ok tt /\
  forall x, In x (collect failure (trace out)) ->
    last_event (trace out)
    = Some (Ev (ConsoleError [LStr "Error sending encrypted message:";
                              LExn x]) (Ok tt)).
Proof.
  unfold sendEncryptedMessage, sendEncryptedMessage_rest,
    sendEncryptedMessage_catch, isUserJoinedInRoom.
  destruct s as [[c |] w0].
  all: walk o.
  all: split; [reflexivity |].
  all: intros x Hx; members; reflexivity.
Qed.

(** C9: the value returned by the membership check plays no part in
    [sendEncryptedMessage].  Whenever the check returns, with whatever
    value (joined or not), the run continues as lines 112-123 from the
    state the check left: it enables encryption on the room and, when
    that and JSON.stringify return, hands the m.room.message event with
    the stringified body to [sendEvent], then logs the outcome. *)
Theorem sendEncryptedMessage_ignores_membership (s s1 : State W)
    (roomId message : string) (joined : Joined) (tr1 : list Event) :
  run o (isUserJoinedInRoom roomId) s
  = {| res := Ok joined; final := s1; trace := tr1 |} ->
  let rest :=
    run o (try_catch (sendEncryptedMessage_rest roomId message)
             sendEncryptedMessage_catch) s1 in
  run o (sendEncryptedMessage roomId message) s = after tr1 rest /\
  (exists r tail,
     trace rest = Ev (SetRoomEncryption roomId megolm) r :: tail) /\
  (forall w2 w3 w4 body r,
     o (SetRoomEncryption roomId megolm) (world s1) = (Ok tt, w2) ->
     o (JsonStringify message) w2 = (Ok body, w3) ->
     o (SendEvent roomId "m.room.message" body "m.text") w3 = (r, w4) ->
     run o (sendEncryptedMessage roomId message) s
     = {| res := Ok tt;
          final := {| client := client s1; world := w4 |};
          trace :=
            (tr1 ++
             [Ev (SetRoomEncryption roomId megolm) (Ok tt);
              Ev (JsonStringify message) (Ok body);
              Ev (SendEvent roomId "m.room.message" body "m.text") r;
              match r with
              | Ok _ =>
                  Ev (ConsoleLog
                        [LStr "Encrypted message sent successfully."])
                     (Ok tt)
              | Err e =>
                  Ev (ConsoleError
                        [LStr "Error sending encrypted message:"; LExn e])
                     (Ok tt)
              end])%list |}).
Proof.
  intros H rest; subst rest.
  assert (Heq : run o (sendEncryptedMessage roomId message) s
                = after tr1
                    (run o (try_catch
                              (sendEncryptedMessage_rest roomId message)
                              sendEncryptedMessage_catch) s1)).
  { unfold sendEncryptedMessage.
    rewrite !run_try_catch, run_bind, H; cbn [res final trace].
    destruct (res (run o (sendEncryptedMessage_rest roomId message) s1))
      eqn:E; cbn [after res final trace]; rewrite E.
    - reflexivity.
    - now rewrite after_after. }
  assert (Hc : exists c, client s1 = Some c).
  { pose proof (@run_keeps_client W o _ (isUserJoinedInRoom roomId) s
                  (keeps_isUserJoinedInRoom roomId)) as Hk.
    rewrite H in Hk; cbn in Hk. rewrite Hk.
    destruct s as [[c |] w0]; [now exists c |].
    cbn in H. discriminate H. }
  destruct Hc as [c Hc]. destruct s1 as [c1 w1]; cbn in Hc; subst c1.
  split; [exact Heq | split].
  - unfold sendEncryptedMessage_rest, sendEncryptedMessage_catch.
    cbn. unfold step, external.
    ask o; cbn; do 2 eexists; reflexivity.
  - intros w2 w3 w4 body r H2 H3 H4. rewrite Heq.
    cbn in H2.
    unfold sendEncryptedMessage_rest, sendEncryptedMessage_catch.
    cbn. unfold step, external; cbn. rewrite H2; cbn.
    unfold step, external; cbn. rewrite H3; cbn.
    unfold step, external; cbn. rewrite H4; cbn.
    destruct r as [eventId | e]; reflexivity.
Qed.

End Send.

(* ------------------------------------------------------------------ *)
(** ** inviteUser *)

Section Invite.

Variable W : Type.
Variable o : Oracle W.

Lemma getMyPowerLevel_invites_nobody (roomId : string) (s : State W) :
  collect invited (trace (run o (getMyPowerLevel roomId) s)) = [].
Proof.
  unfold getMyPowerLevel, read_message. destruct s as [[c |] w0].
  all: walk o; reflexivity.
Qed.

Lemma getStateEvent_answered (roomId type key : string) (s s1 : State W)
    (pl : PowerLevels) (tr1 : list Event) :
  run o (call (GetStateEvent roomId type key)) s
  = {| res := Ok pl; final := s1; trace := tr1 |} ->
  (exists c, client s1 = Some c) /\ collect invited tr1 = [].
Proof.
  destruct s as [[c |] w0]; cbn; unfold step, external; cbn.
  - ask o; cbn; intros H; [| discriminate H].
    injection H as _ <- <-. split; [now exists c | reflexivity].
  - intros H; discriminate H.
Qed.

(** C10, as amended: [inviteUser] reads the m.room.power_levels state
    event and then, after roomInitialSync, looks the client's own user id
    up among the members of the room.  When the client is a member and
    the event carries the invite level [n], it throws
    Error("Error: You dont have permission to invite users") without
    issuing any invite exactly when [n] is strictly greater than that
    member's powerLevel, and otherwise issues exactly the invite of
    [userId] to [roomId], whose outcome is its own.  When the client is
    not a member of the room it issues no invite either, and fails with
    the Error that wraps the TypeError of reading the member's level. *)
Theorem inviteUser_checks_power_level (s : State W)
    (roomId userId : string) (c : ClientObj) (pl : PowerLevels)
    (room : Room) (uid : option string) (w1 w2 w3 w4 : W) :
  client s = Some c ->
  o (GetStateEvent roomId "m.room.power_levels" "") (world s) = (Ok pl, w1) ->
  o (RoomInitialSync roomId 10) w1 = (Ok tt, w2) ->
  o (GetRoom roomId) w2 = (Ok (Some room), w3) ->
  o GetUserId w3 = (Ok uid, w4) ->
  let out := run o (inviteUser roomId userId) s in
  let s4 := {| client := Some c; world := w4 |} in
  let reads :=
    [Ev (GetStateEvent roomId "m.room.power_levels" "") (Ok pl);
     Ev (RoomInitialSync roomId 10) (Ok tt);
     Ev (GetRoom roomId) (Ok (Some room));
     Ev GetUserId (Ok uid)] in
  (forall me n,
     getMember room uid = Some me ->
     invite pl = Some n ->
     ((n > powerLevel me)%Z ->
      out = {| res := Err (Error "Error: You dont have permission to invite users");
               final := s4; trace := reads |}) /\
     ((n <= powerLevel me)%Z ->
      out = after reads (run o (call (Invite roomId userId)) s4) /\
      collect invited (trace out) = [(roomId, userId)])) /\
  (getMember room uid = None ->
   out = {| res := Err (Error_of (err_message (TypeError "null" "powerLevel")));
            final := s4; trace := reads |}).
Proof.
  intros Hc H1 H2 H3 H4. cbv zeta.
  destruct s as [cl w0]; cbn in Hc, H1; subst cl.
  unfold inviteUser, getMyPowerLevel, read_message.
  cbn. unfold step, external; cbn. rewrite H1; cbn.
  unfold step, external; cbn. rewrite H2; cbn.
  unfold step, external; cbn. rewrite H3; cbn.
  unfold step, external; cbn. rewrite H4; cbn.
  split.
  - intros me n Hme Hn. rewrite Hme; cbn. rewrite Hn; cbn.
    split; intros Hcmp.
    + replace (powerLevel me <? n)%Z with true
        by (symmetry; apply Z.ltb_lt; lia).
      reflexivity.
    + replace (powerLevel me <? n)%Z with false
        by (symmetry; apply Z.ltb_ge; lia).
      cbn. unfold step, external; cbn.
      ask o; cbn; split; reflexivity.
  - intros Hme. rewrite Hme; cbn. reflexivity.
Qed.

End Invite.

(* ------------------------------------------------------------------ *)
(** ** Room encryption against the specified gate *)

Section Gate.

Variable W : Type.
Variable base : Oracle W.

(** A call that does not enable encryption on another room leaves the
    policies and the requests of an encrypted room's gate as they are. *)
Lemma gate_step (roomId : string) (pol : RoomEncryptionPolicy)
    (ps rq : list RoomEncryptionPolicy) R (c : Call R)
    (s : State (GateWorld W)) :
  policy_of roomId ps = Some pol ->
  encrypts_only roomId c = true ->
  stateChangeRequests (world s) = rq /\ policies (world s) = ps ->
  let s' := snd (fst (step (gate_oracle base) c s)) in
  stateChangeRequests (world s') = rq /\ policies (world s') = ps.
Proof.
  intros Hpol Hc [Hrq Hps].
  destruct s as [cl [ps' rq' w0]]; cbn in Hrq, Hps; subst ps' rq'.
  destruct cl as [obj |]; destruct c; cbn in Hc |- *;
    try (split; reflexivity).
  all: unfold step, external, gate_oracle; cbn -[policy_of].
  all: try (ask base; split; reflexivity).
  apply String.eqb_eq in Hc; subst roomId0.
  unfold ensureRoomEncrypted; cbn -[policy_of].
  rewrite Hpol. split; reflexivity.
Qed.

(** C5: on a room whose encryption policy is already recorded,
    [sendEncryptedMessage] and [getMessageEncrypted] call
    [setRoomEncryption] again, always with the algorithm
    m.megolm.v1.aes-sha2; against the gate of the specification that
    second application adds no state-change request and leaves every
    recorded policy, the room's included, as it was. *)
Theorem room_encryption_idempotent (s : State (GateWorld W))
    (roomId message : string) (p : nat) (pol : RoomEncryptionPolicy) :
  policy_of roomId (policies (world s)) = Some pol ->
  let sent := run (gate_oracle base)
                  (sendEncryptedMessage roomId message) s in
  let received := run (gate_oracle base)
                      (getMessageEncrypted p roomId) s in
  ensureRoomEncrypted roomId megolm (world s) = (pol, world s) /\
  (stateChangeRequests (world (final sent))
   = stateChangeRequests (world s) /\
   policies (world (final sent)) = policies (world s)) /\
  (stateChangeRequests (world (final received))
   = stateChangeRequests (world s) /\
   policies (world (final received)) = policies (world s)).
Proof.
  intros H. cbv zeta.
  split; [| split].
  - unfold ensureRoomEncrypted. now rewrite H.
  - apply (@run_invariant _ (gate_oracle base) (encrypts_only roomId)
             (fun s' =>
                stateChangeRequests (world s')
                = stateChangeRequests (world s) /\
                policies (world s') = policies (world s))).
    + intros R c s' Hc Hs. eapply gate_step; eassumption.
    + apply sendEncryptedMessage_encrypts_only.
    + split; reflexivity.
  - apply (@run_invariant _ (gate_oracle base) (encrypts_only roomId)
             (fun s' =>
                stateChangeRequests (world s')
                = stateChangeRequests (world s) /\
                policies (world s') = policies (world s))).
    + intros R c s' Hc Hs. eapply gate_step; eassumption.
    + apply getMessageEncrypted_encrypts_only.
    + split; reflexivity.
Qed.

End Gate.

(* ------------------------------------------------------------------ *)
(** ** Concrete runs *)

(** The claim C1 fails on the code: an undecryptable event makes both
    "Event.decrypted" listeners throw, and nothing is rejected or passed
    to the callback. *)
Lemma decryption_failure_uncaught :
  let g := run scripted (getMessageEncrypted_onDecrypted 0 undecryptable)
               (running calm) in
  let m := run scripted
               (messageListenerEncrypted_onDecrypted 0 lobby undecryptable)
               (running calm) in
  res g = Err (Error "Failed to decrypt message: ") /\
  collect rejected (trace g) = [] /\
  res m = Err (Error "Failed to decrypt message: ") /\
  collect called_back (trace m) = [].
Proof. vm_compute. repeat split. Qed.

Lemma decryption_failure_thrown_in_listener_witness :
  ev_type undecryptable = "m.room.encrypted" /\
  ev_isDecryptionFailure undecryptable = true /\
  run scripted (getMessageEncrypted_onDecrypted 0 undecryptable)
      (running calm)
  = {| res := Err (Error "Failed to decrypt message: ");
       final := running calm; trace := [] |}.
Proof.
  split; [reflexivity | split; [reflexivity |]].
  exact (proj1 (@decryption_failure_thrown_in_listener
                  Scenario scripted (running calm) 0 0 lobby undecryptable
                  policy_violation eq_refl eq_refl)).
Defined.

(** The claim C2 fails on the code: the send is refused with a policy
    violation and [sendEncryptedMessage] still resolves. *)
Lemma policy_violation_not_signalled :
  let out := run scripted (sendEncryptedMessage lobby "hi")
                 (running blocked) in
  collect failure (trace out) = [policy_violation] /\
  res out = Ok tt.
Proof. vm_compute. split; reflexivity. Qed.

Lemma sendEncryptedMessage_swallows_errors_witness :
  let out := run scripted (sendEncryptedMessage lobby "hi")
                 (running blocked) in
  In policy_violation (collect failure (trace out)) /\
  last_event (trace out)
  = Some (Ev (ConsoleError [LStr "Error sending encrypted message:";
                            LExn policy_violation]) (Ok tt)).
Proof.
  cbv zeta.
  assert (H : In policy_violation
                (collect failure
                   (trace (run scripted (sendEncryptedMessage lobby "hi")
                             (running blocked))))).
  { vm_compute. left. reflexivity. }
  split; [exact H |].
  exact (proj2 (@sendEncryptedMessage_swallows_errors
                  Scenario scripted (running blocked) lobby "hi")
               policy_violation H).
Defined.


(** The claim C4 fails on the code: authentication is refused and the
    promise of [runClient] resolves. *)
Lemma auth_failure_not_surfaced :
  let out := run scripted (runClient None (CredObject alice_cred))
                 (fresh auth_down) in
  collect auth_failure (trace out)
  = [JsError "M_FORBIDDEN" "Invalid username or password"] /\
  res out = Ok tt.
Proof. vm_compute. split; reflexivity. Qed.

Lemma runClient_auth_failure_swallowed_witness :
  let out := run scripted (runClient None (CredObject alice_cred))
                 (fresh auth_down) in
  let x := JsError "M_FORBIDDEN" "Invalid username or password" in
  let nulled := run scripted (runClient None (CredObject alice_cred))
                    (fresh auth_null) in
  (In x (collect auth_failure (trace out)) /\
   nullish x = None /\
   client (final out) = None /\
   length (collect auth_args (trace out)) = 1 /\
   filter is_startup (trace out) = [] /\
   res out = Ok tt /\
   last_event (trace out)
   = Some (Ev (ConsoleError [LOptStr (err_message x)]) (Ok tt))) /\
  (In JsNull (collect auth_failure (trace nulled)) /\
   nullish JsNull = Some "null" /\
   res nulled = Err (TypeError "null" "message") /\
   collect printed_error (trace nulled) = []).
Proof.
  cbv zeta.
  assert (H : In (JsError "M_FORBIDDEN" "Invalid username or password")
                (collect auth_failure
                   (trace (run scripted
                             (runClient None (CredObject alice_cred))
                             (fresh auth_down))))).
  { vm_compute. left. reflexivity. }
  assert (H0 : In JsNull
                 (collect auth_failure
                    (trace (run scripted
                              (runClient None (CredObject alice_cred))
                              (fresh auth_null))))).
  { vm_compute. left. reflexivity. }
  pose proof (@runClient_auth_failure_swallowed
                Scenario scripted (fresh auth_down) None
                (CredObject alice_cred) _ H) as (A1 & A2 & A3 & A4 & _).
  pose proof (@runClient_auth_failure_swallowed
                Scenario scripted (fresh auth_null) None
                (CredObject alice_cred) _ H0) as (_ & _ & _ & _ & B5).
  split.
  - split; [exact H | split; [reflexivity |]].
    split; [exact A1 | split; [exact A2 | split; [exact A3 |]]].
    exact (A4 eq_refl).
  - split; [exact H0 | split; [reflexivity |]].
    exact (B5 "null" eq_refl).
Defined.

Lemma room_encryption_idempotent_witness :
  policy_of lobby (policies (world encrypted_lobby)) = Some lobby_policy /\
  stateChangeRequests
    (world (final (run (gate_oracle scripted)
                       (sendEncryptedMessage lobby "hi") encrypted_lobby)))
  = [lobby_policy].
Proof.
  split; [reflexivity |].
  exact (proj1 (proj1 (proj2 (@room_encryption_idempotent
                                Scenario scripted encrypted_lobby lobby "hi"
                                0 lobby_policy eq_refl)))).
Defined.


Lemma timeline_listeners_filter_witness :
  let g := run scripted (getMessage_onTimeline 0 hello lobby_room false)
               (running calm) in
  In (Some "hello") (collect delivered (trace g)) /\
  false = false /\
  ev_type hello = "m.room.message" /\
  Some "hello" = ev_body hello.
Proof.
  cbv zeta.
  assert (H : In (Some "hello")
                (collect delivered
                   (trace (run scripted
                             (getMessage_onTimeline 0 hello lobby_room false)
                             (running calm))))).
  { vm_compute. left. reflexivity. }
  split; [exact H |].
  exact (proj1 (@timeline_listeners_filter
                  Scenario scripted (running calm) 0 0 lobby hello
                  lobby_room false)
               (Some "hello") H).
Defined.

Lemma auto_join_own_invites_witness :
  client (running calm) = Some alice_client /\
  scripted GetUserId (world (running calm)) = (Ok (Some alice), calm) /\
  membership invitation = Some "invite" /\
  Some alice = Some (member_userId invitation) /\
  collect joined_room (trace (run scripted (autoJoin invitation)
                                  (running calm)))
  = [member_roomId invitation].
Proof.
  repeat (split; [reflexivity |]).
  exact (proj1 (@auto_join_own_invites
                  Scenario scripted (running calm) invitation alice_client
                  (Some alice) calm eq_refl eq_refl)
               (conj eq_refl eq_refl)).
Defined.

Lemma sendEncryptedMessage_ignores_membership_witness :
  let send := SendEvent lobby "m.room.message" "hi" "m.text" in
  run scripted (isUserJoinedInRoom lobby) (running stranger)
  = {| res := Ok (JBool false);
       final := running stranger;
       trace := [Ev (GetRoom lobby) (Ok None)] |} /\
  scripted (SetRoomEncryption lobby megolm) stranger = (Ok tt, stranger) /\
  scripted (JsonStringify "hi") stranger = (Ok "hi", stranger) /\
  scripted send stranger = (Ok "$event", stranger) /\
  run scripted (sendEncryptedMessage lobby "hi") (running stranger)
  = {| res := Ok tt;
       final := running stranger;
       trace :=
         [Ev (GetRoom lobby) (Ok None);
          Ev (SetRoomEncryption lobby megolm) (Ok tt);
          Ev (JsonStringify "hi") (Ok "hi");
          Ev send (Ok "$event");
          Ev (ConsoleLog [LStr "Encrypted message sent successfully."])
             (Ok tt)] |}.
Proof.
  cbv zeta.
  repeat (split; [reflexivity |]).
  exact (proj2 (proj2 (@sendEncryptedMessage_ignores_membership
                         Scenario scripted (running stranger)
                         (running stranger) lobby "hi" (JBool false)
                         [Ev (GetRoom lobby) (Ok None)] eq_refl))
               stranger stranger stranger "hi" (Ok "$event")
               eq_refl eq_refl eq_refl).
Defined.

(** The claim C10 fails on the code: anybody may invite in the room
    (level 0), the client is not one of its members, and [inviteUser]
    neither throws the permission error nor issues the invite. *)
Lemma invite_neither_refused_nor_issued :
  let out := run scripted (inviteUser lobby "@bob:example.org")
                 (running outsider) in
  res out
  = Err (Error "Cannot read properties of null (reading 'powerLevel')") /\
  res out
  <> Err (Error "Error: You dont have permission to invite users") /\
  collect invited (trace out) = [].
Proof. vm_compute. repeat split. discriminate. Qed.

Lemma inviteUser_checks_power_level_witness :
  let out := run scripted (inviteUser lobby "@bob:example.org")
                 (running moderated) in
  client (running moderated) = Some alice_client /\
  scripted (GetStateEvent lobby "m.room.power_levels" "") moderated
  = (Ok {| invite := Some 100%Z |}, moderated) /\
  scripted (RoomInitialSync lobby 10) moderated = (Ok tt, moderated) /\
  scripted (GetRoom lobby) moderated = (Ok (Some lobby_room), moderated) /\
  scripted GetUserId moderated = (Ok (Some alice), moderated) /\
  getMember lobby_room (Some alice) = Some alice_member /\
  (100 > powerLevel alice_member)%Z /\
  out
  = {| res := Err (Error "Error: You dont have permission to invite users");
       final := running moderated;
       trace :=
         [Ev (GetStateEvent lobby "m.room.power_levels" "")
             (Ok {| invite := Some 100%Z |});
          Ev (RoomInitialSync lobby 10) (Ok tt);
          Ev (GetRoom lobby) (Ok (Some lobby_room));
          Ev GetUserId (Ok (Some alice))] |}.
Proof.
  cbv zeta.
  repeat (split; [reflexivity |]).
  exact (proj1 (proj1 (@inviteUser_checks_power_level
                         Scenario scripted (running moderated)
                         lobby "@bob:example.org" alice_client
                         {| invite := Some 100%Z |} lobby_room (Some alice)
                         moderated moderated moderated moderated
                         eq_refl eq_refl eq_refl eq_refl eq_refl)
                      alice_member 100%Z eq_refl eq_refl)
               eq_refl).
Defined.

(* ------------------------------------------------------------------ *)
(** ** runClient: arguments, validation and what it leaves behind *)

(** Proves that an observation is silent on prologue events. *)
Ltac silent :=
  let e := fresh "e" in
  let R := fresh "R" in
  let c := fresh "c" in
  let r := fresh "r" in
  intros e; destruct e as [R c r]; destruct c; cbn;
  solve [ reflexivity | discriminate ].

Section RunClientEdges.

Variable W : Type.
Variable o : Oracle W.

Local Arguments runClient_guarded : simpl never.
Local Arguments missingProperties : simpl never.
Local Arguments missing_message : simpl never.
Local Arguments select_data : simpl never.
Local Arguments Nat.ltb : simpl never.

Lemma guarded_outcome (data : option CredObj) (s : State W) :
  let out := run o (runClient_guarded data) s in
  res out = Ok tt \/
  (exists x receiver,
      In x (collect failure (trace out)) /\
      nullish x = Some receiver /\
      res out = Err (TypeError receiver "message")).
Proof.
  unfold runClient_guarded, runClient_try, runClient_catch,
    read_message.
  destruct s as [[c |] w0]; destruct data as [d |].
  all: walk o.
  all: repeat match goal with u : unit |- _ => destruct u end.
  all: first [ left; reflexivity
             | right; do 2 eexists;
               split; [left; reflexivity | split; reflexivity] ].
Qed.

Lemma guarded_resolves (data : option CredObj) (s : State W) :
  let out := run o (runClient_guarded data) s in
  (forall x, In x (collect failure (trace out)) -> nullish x = None) ->
  res out = Ok tt.
Proof.
  cbv zeta. intros H.
  destruct (guarded_outcome data s) as [Hok | (x & receiver & Hx & Hn & _)].
  - exact Hok.
  - rewrite (H x Hx) in Hn. discriminate Hn.
Qed.

Lemma guarded_auth_args (d : CredObj) (s : State W) :
  collect auth_args (trace (run o (runClient_guarded (Some d)) s))
  = [(username d, password d, homeserverUrl d)].
Proof.
  unfold runClient_guarded, runClient_try, runClient_catch,
    read_message.
  destruct s as [[c |] w0].
  all: walk o; reflexivity.
Qed.

Lemma guarded_client (data : option CredObj) (s : State W) :
  let out := run o (runClient_guarded data) s in
  (collect created (trace out) = [] -> client (final out) = client s) /\
  (forall obj, In obj (collect created (trace out)) ->
     exists c, client (final out) = Some c /\ opts c = opts obj).
Proof.
  unfold runClient_guarded, runClient_try, runClient_catch,
    read_message.
  destruct s as [[c |] w0]; destruct data as [d |].
  all: walk o.
  all: split; [intros H; try discriminate H; reflexivity |].
  all: intros obj Hobj; members.
  all: eexists; split; reflexivity.
Qed.

Lemma guarded_started (data : option CredObj) (s : State W) :
  let tr := trace (run o (runClient_guarded data) s) in
  collect started tr = [] \/
  (collect started tr = [1%Z] /\ collect crypto_enabled tr = [true]).
Proof.
  unfold runClient_guarded, runClient_try, runClient_catch,
    read_message.
  destruct s as [[c |] w0]; destruct data as [d |].
  all: walk o.
  all: auto.
Qed.

(** X1: [runClient] rejects in two ways only.  Either it fails in its
    prologue, having done nothing but olm.init and reading and parsing
    the file, with the variable [client] untouched; or a call inside the
    try block failed with null or undefined as its reason, and the
    rejection is the TypeError of reading [err.message] in the catch
    clause.  In every other run its promise resolves. *)
Theorem runClient_rejects_only_in_prologue (s : State W) fp arg :
  let out := run o (runClient fp arg) s in
  res out = Ok tt \/
  (exists e, res out = Err e /\
             forallb is_prologue (trace out) = true /\
             client (final out) = client s) \/
  (exists x receiver,
      In x (collect failure (trace out)) /\
      nullish x = Some receiver /\
      res out = Err (TypeError receiver "message")).
Proof.
  cbv zeta.
  destruct (runClient_cases o s fp arg)
    as [(e & He & Hpre & Hc) | (data & pre & s1 & Hout & _ & _)].
  - right; left. exists e. auto.
  - rewrite Hout; cbn [after res final trace].
    destruct (guarded_outcome data s1)
      as [Hok | (x & receiver & Hx & Hn & Hr)].
    + now left.
    + right; right. exists x, receiver.
      rewrite collect_app. repeat split; try assumption.
      apply in_or_app. now right.
Qed.

(** X2: without a file path, [runClient] called with [null] credentials
    throws the must-provide error before calling anything; called with the
    credentials omitted, the default [{}] passes that guard and, once
    olm.init has returned, the call fails listing all three properties as
    missing. *)
Theorem runClient_without_arguments (s : State W) fp (w1 : W) :
  truthy_str fp = false ->
  o OlmInit (world s) = (Ok tt, w1) ->
  run o (runClient fp CredNull) s
  = {| res := Err no_arguments_error; final := s; trace := [] |} /\
  run o (runClient fp CredOmitted) s
  = {| res := Err (Error "Error: missing properties, needed properties: homeserverUrl, username, password");
       final := {| client := client s; world := w1 |};
       trace := [Ev OlmInit (Ok tt)] |}.
Proof.
  intros Hfp Ho. unfold runClient. rewrite Hfp.
  destruct s as [cl w0]; cbn in Ho.
  split; [reflexivity |].
  cbn. unfold step, external; cbn. rewrite Ho; cbn.
  destruct cl; destruct fp as [path |]; cbn; try reflexivity.
  all: cbn in Hfp; rewrite Hfp; reflexivity.
Qed.

Lemma missingProperties_no_file (credentials : option CredObj) :
  missingProperties None credentials = lacking None credentials.
Proof. reflexivity. Qed.

Lemma missingProperties_file (f : CredObj) (credentials : option CredObj) :
  missingProperties (Some f) credentials
  = (lacking (Some f) credentials ++ lacking (Some f) credentials)%list.
Proof. unfold missingProperties, lacking; cbn [is_some]. apply filter_app. Qed.

(** X3: without a file, a credentials object in which some required
    property is absent or empty makes [runClient] fail with the
    missing-properties error naming exactly those properties, in the order
    homeserverUrl, username, password; no authentication is attempted and
    [client] is untouched. *)
Theorem runClient_missing_properties (s : State W) fp (c : CredObj) (w1 : W) :
  truthy_str fp = false ->
  o OlmInit (world s) = (Ok tt, w1) ->
  lacking None (Some c) <> [] ->
  let out := run o (runClient fp (CredObject c)) s in
  res out = Err (Error (missing_message (lacking None (Some c)))) /\
  lacking None (Some c)
  = filter (fun prop => negb (truthy_str (get_prop c prop)))
           required_properties /\
  collect auth_args (trace out) = [] /\
  client (final out) = client s.
Proof.
  intros Hfp Ho Hl. cbv zeta. unfold runClient. rewrite Hfp.
  destruct s as [cl w0]; cbn in Ho.
  cbn. unfold step, external; cbn. rewrite Ho; cbn.
  assert (Hlt : (0 <? length (missingProperties None (Some c)))%nat = true).
  { rewrite missingProperties_no_file. apply Nat.ltb_lt.
    destruct (lacking None (Some c)); [contradiction | cbn; lia]. }
  destruct fp as [path |]; cbn; try (cbn in Hfp; rewrite Hfp); cbn.
  all: rewrite Hlt; cbn.
  all: destruct cl; cbn; repeat split.
Qed.

(** X4: when a file was read and parsed to an object, every required
    property that is falsy in both the file and the credentials object is
    named twice in the error message: the property list is the file's
    three names followed by the object's three names. *)
Theorem runClient_missing_properties_twice (s : State W) (path text : string)
    (f : CredObj) arg (w1 w2 w3 : W) :
  truthy_str (Some path) = true ->
  o OlmInit (world s) = (Ok tt, w1) ->
  o (ReadFileSync path) w1 = (Ok text, w2) ->
  o (JsonParse text) w2 = (Ok (Some f), w3) ->
  lacking (Some f) (default_credentials arg) <> [] ->
  let out := run o (runClient (Some path) arg) s in
  let l := lacking (Some f) (default_credentials arg) in
  res out = Err (Error (missing_message (l ++ l))) /\
  collect auth_args (trace out) = [].
Proof.
  intros Hp H1 H2 H3 Hl. cbv zeta. unfold runClient. rewrite Hp.
  destruct s as [cl w0]; cbn in H1.
  cbn [negb andb].
  cbn. unfold step, external; cbn. rewrite H1; cbn.
  unfold step, external; cbn. rewrite H2; cbn.
  unfold step, external; cbn. rewrite H3; cbn.
  rewrite missingProperties_file.
  assert (Hlt : (0 <? length (lacking (Some f) (default_credentials arg)
                              ++ lacking (Some f) (default_credentials arg)))%nat
                = true).
  { apply Nat.ltb_lt. rewrite length_app.
    destruct (lacking (Some f) (default_credentials arg));
      [contradiction | cbn; lia]. }
  rewrite Hlt; cbn.
  destruct cl; cbn; split; reflexivity.
Qed.

Lemma select_data_file (f : CredObj) (credentials : option CredObj) :
  missingProperties (Some f) credentials = [] ->
  select_data (Some f) credentials = Some f.
Proof.
  intros H. unfold select_data. rewrite H.
  destruct credentials; reflexivity.
Qed.

(** X5: when the file parses to an object and nothing is missing, the
    login uses the file's three properties and nothing of the credentials
    object, even for a property that only the object provides (the file's
    value, possibly undefined, is what is passed). *)
Theorem runClient_file_takes_precedence (s : State W) (path text : string)
    (f : CredObj) arg (w1 w2 w3 : W) :
  truthy_str (Some path) = true ->
  o OlmInit (world s) = (Ok tt, w1) ->
  o (ReadFileSync path) w1 = (Ok text, w2) ->
  o (JsonParse text) w2 = (Ok (Some f), w3) ->
  lacking (Some f) (default_credentials arg) = [] ->
  let out := run o (runClient (Some path) arg) s in
  collect auth_args (trace out)
  = [(username f, password f, homeserverUrl f)].
Proof.
  intros Hp H1 H2 H3 Hl. cbv zeta. unfold runClient. rewrite Hp.
  destruct s as [cl w0]; cbn in H1.
  cbn [negb andb].
  cbn. unfold step, external; cbn. rewrite H1; cbn.
  unfold step, external; cbn. rewrite H2; cbn.
  unfold step, external; cbn. rewrite H3; cbn.
  assert (Hm : missingProperties (Some f) (default_credentials arg) = []).
  { rewrite missingProperties_file, Hl. reflexivity. }
  rewrite select_data_file by exact Hm. rewrite Hm; cbn.
  destruct cl; cbn; apply guarded_auth_args.
Qed.

(** X6: the variable [client] is assigned as soon as createClient has
    returned.  If a later step of the start-up fails (initCrypto,
    startClient, the bootstrap, ...), [client] holds the client just
    created, and [runClient] still resolves unless the reason of that
    failure is null or undefined; if no client was created, [client]
    keeps its previous value. *)
Theorem runClient_client_variable (s : State W) fp arg :
  let out := run o (runClient fp arg) s in
  (collect created (trace out) = [] -> client (final out) = client s) /\
  (forall obj, In obj (collect created (trace out)) ->
     (exists c, client (final out) = Some c /\ opts c = opts obj) /\
     ((forall x, In x (collect failure (trace out)) -> nullish x = None) ->
      res out = Ok tt)).
Proof.
  cbv zeta.
  destruct (runClient_cases o s fp arg)
    as [(e & He & Hpre & Hc) | (data & pre & s1 & Hout & Hpre & Hc)].
  - rewrite (collect_prologue created) by (silent || assumption).
    split; [auto | intros obj []].
  - rewrite Hout; cbn [after res final trace].
    rewrite !collect_app, (collect_prologue created)
      by (silent || assumption).
    cbn [app]. rewrite <- Hc.
    destruct (guarded_client data s1) as [Hnone Hsome].
    split; [exact Hnone |].
    intros obj Hobj. split; [now apply Hsome |].
    intros Hf. apply guarded_resolves.
    intros x Hx. apply Hf. apply in_or_app. now right.
Qed.

(** X7: [runClient] starts the client at most once, with
    initialSyncLimit 1, and only after isCryptoEnabled has answered
    true. *)
Theorem runClient_starts_only_with_crypto (s : State W) fp arg :
  let tr := trace (run o (runClient fp arg) s) in
  collect started tr = [] \/
  (collect started tr = [1%Z] /\ collect crypto_enabled tr = [true]).
Proof.
  cbv zeta.
  destruct (runClient_cases o s fp arg)
    as [(e & He & Hpre & Hc) | (data & pre & s1 & Hout & Hpre & Hc)].
  - left. now rewrite (collect_prologue started) by (silent || assumption).
  - rewrite Hout; cbn [after res final trace].
    rewrite !collect_app, (collect_prologue started),
      (collect_prologue crypto_enabled) by (silent || assumption).
    apply guarded_started.
Qed.

End RunClientEdges.

(* ------------------------------------------------------------------ *)
(** ** The other operations: membership, listeners, power levels *)

(** [walk] that remembers how the lookups and comparisons came out. *)
Ltac explore o :=
  repeat (cbn;
          first [ progress unfold step, external
                | ask o
                | match goal with
                  | |- context [match ?x with _ => _ end] =>
                      is_var x; destruct x
                  | |- context [match getMember ?r ?u with _ => _ end] =>
                      destruct (getMember r u) eqn:?
                  | |- context [js_gt ?a ?b] => destruct (js_gt a b) eqn:?
                  | |- context [opt_str_eqb ?a ?b] =>
                      destruct (opt_str_eqb a b) eqn:?
                  | |- context [truthy_str ?x] => is_var x; destruct x
                  | |- context [nullish ?x] => is_var x; destruct x
                  | |- context [String.eqb ?a ?b] =>
                      destruct (String.eqb a b) eqn:?
                  end ]);
  cbn.

Section Operations.

Variable W : Type.
Variable o : Oracle W.

(** X8: [isUserJoinedInRoom] throws "Client is not initialized." without
    calling anything when [client] is unset; answers false, without asking
    for the user id, when the SDK does not know the room; and otherwise
    answers a truthy value exactly when the room has a member with the
    client's own user id whose membership is "join". *)
Theorem isUserJoinedInRoom_answers (s : State W) (roomId : string) :
  (client s = None ->
   run o (isUserJoinedInRoom roomId) s
   = {| res := Err (Error "Client is not initialized.");
        final := s; trace := [] |}) /\
  (forall c w1,
     client s = Some c ->
     o (GetRoom roomId) (world s) = (Ok None, w1) ->
     run o (isUserJoinedInRoom roomId) s
     = {| res := Ok (JBool false);
          final := {| client := Some c; world := w1 |};
          trace := [Ev (GetRoom roomId) (Ok None)] |}) /\
  (forall c r uid w1 w2,
     client s = Some c ->
     o (GetRoom roomId) (world s) = (Ok (Some r), w1) ->
     o GetUserId w1 = (Ok uid, w2) ->
     exists j,
       res (run o (isUserJoinedInRoom roomId) s) = Ok j /\
       (truthy_joined j = true <->
        exists m, getMember r uid = Some m /\ membership m = Some "join")).
Proof.
  destruct s as [cl w0]; cbn [client world].
  unfold isUserJoinedInRoom.
  split; [| split].
  - intros ->. reflexivity.
  - intros c w1 -> H. cbn. unfold step, external; cbn. rewrite H. reflexivity.
  - intros c r uid w1 w2 -> H1 H2.
    cbn. unfold step, external; cbn. rewrite H1; cbn.
    unfold step, external; cbn. rewrite H2; cbn.
    destruct (getMember r uid) as [m |]; cbn; eexists; (split; [reflexivity |]).
    + cbn -[opt_str_eqb]. rewrite opt_str_eqb_eq. split.
      * intros Hm. now exists m.
      * intros (m' & Hm' & Hj). now injection Hm' as <-.
    + cbn. split; [discriminate |]. intros (m' & Hm' & _). discriminate Hm'.
Qed.

(** X9: when the membership check answers a falsy value,
    [getMessageEncrypted] rejects its promise with the string
    "Client is not a member of the room", logs it, and stops: encryption
    is not enabled and no listener is registered. *)
Theorem getMessageEncrypted_not_joined (s s1 : State W) (p : nat)
    (roomId : string) (j : Joined) (tr1 : list Event) :
  run o (isUserJoinedInRoom roomId) s
  = {| res := Ok j; final := s1; trace := tr1 |} ->
  truthy_joined j = false ->
  run o (getMessageEncrypted p roomId) s
  = after tr1
      {| res := Ok tt; final := s1;
         trace :=
           [Ev (Reject p (JsReason "Client is not a member of the room"))
               (Ok tt);
            Ev (ConsoleLog [LStr "Client is not a member of the room"])
               (Ok tt)] |}.
Proof.
  intros H Hj. unfold getMessageEncrypted.
  rewrite run_bind, H; cbn [res final trace]. rewrite Hj. reflexivity.
Qed.


(** X11: [getMessage] always returns; with an unset client the promise is
    rejected with the TypeError of the failed [client.on], otherwise a
    single "Room.timeline" listener is registered and the promise is left
    to it. *)
Theorem getMessage_registers_or_rejects (s : State W) (p : nat) :
  let out := run o (getMessage p) s in
  res out = Ok tt /\
  (client s = None ->
   trace out = [Ev (Reject p (TypeError "undefined" "on")) (Ok tt)]) /\
  (client s <> None ->
   collect registered (trace out)
   = [("Room.timeline", GetMessageListener p)]).
Proof.
  cbv zeta. unfold getMessage.
  destruct s as [[c |] w0].
  all: explore o.
  all: repeat match goal with u : unit |- _ => destruct u end.
  all: repeat split; intros H; try discriminate H; try reflexivity.
  all: now contradiction H.
Qed.

(** X12: [getMessageEncrypted] registers listeners only after
    setRoomEncryption(roomId, m.megolm.v1.aes-sha2) has returned; the
    "Event.decrypted" listener, which resolves the promise, only when
    isRoomEncrypted answered true; the only other listener is the one on
    "Event.decryption_failure". *)
Theorem getMessageEncrypted_listeners (s : State W) (p : nat)
    (roomId : string) :
  let tr := trace (run o (getMessageEncrypted p roomId) s) in
  forall name l, In (name, l) (collect registered tr) ->
    collect send_step tr = [EncryptionEnabled roomId megolm] /\
    (((name, l) = ("Event.decrypted", GetMessageEncryptedListener p) /\
      existsb room_encrypted tr = true) \/
     (name, l)
     = ("Event.decryption_failure", GetMessageEncryptedFailureListener p)).
Proof.
  cbv zeta. unfold getMessageEncrypted, isUserJoinedInRoom.
  destruct s as [[c |] w0].
  all: explore o.
  all: intros name l H.
  all: repeat match goal with
              | H : False |- _ => contradiction H
              | H : _ \/ _ |- _ => destruct H as [H | H]
              | H : (_, _) = (_, _) |- _ => injection H as <- <-
              end.
  all: split; [reflexivity |]; auto.
Qed.

(** X13: [messageListenerEncrypted] never throws, and every failure ends
    in a console.error as its last act.  A failed membership check (an
    unset client included) and a [client.setRoomEncryption] that throws
    on the spot are printed by the catch of the outer chain; a rejection
    of the promise that call returned and a failing [client.on] are
    printed by the catch of the inner chain; without any failure nothing
    is printed.  It calls [client.on] at most once, for "Event.decrypted"
    with its own listener, and only after the promise of
    setRoomEncryption(roomId, m.megolm.v1.aes-sha2) was fulfilled. *)
Theorem messageListenerEncrypted_never_throws (s : State W) (cb : nat)
    (roomId : string) :
  let out := run o (messageListenerEncrypted cb roomId) s in
  let tr := trace out in
  let outer x :=
    Some (Ev (ConsoleError
                [LStr "Error while checking user's room join status:";
                 LExn x]) (Ok tt)) in
  let inner x :=
    Some (Ev (ConsoleError
                [LStr "Error while setting room encryption:"; LExn x])
             (Ok tt)) in
  res out = Ok tt /\
  (collect registered tr = [] \/
   (collect registered tr
    = [("Event.decrypted", MessageListenerEncryptedListener cb roomId)] /\
    collect enabled_by_promise tr = [(roomId, megolm)])) /\
  (client s = None ->
   last_event tr = outer (Error "Client is not initialized.")) /\
  (forall x, In x (collect promise_rejection tr) ->
     last_event tr = inner x) /\
  (forall x, In x (collect registration_failure tr) ->
     last_event tr = inner x) /\
  (forall x, In x (collect failure tr) ->
     collect registration_failure tr = [] ->
     last_event tr = outer x) /\
  (client s <> None ->
   collect failure tr = [] ->
   collect promise_rejection tr = [] ->
   collect printed_error tr = []).
Proof.
  cbv zeta.
  unfold messageListenerEncrypted, messageListenerEncrypted_then,
    messageListenerEncrypted_inner_catch,
    messageListenerEncrypted_outer_catch, isUserJoinedInRoom.
  destruct s as [[c |] w0].
  all: explore o.
  all: repeat match goal with u : unit |- _ => destruct u end.
  all: repeat split; auto.
  all: intros; members;
    try discriminate; try contradiction; try reflexivity.
Qed.

(** X14: the value of the membership check plays no part in
    [messageListenerEncrypted] either.  Whenever the check returns,
    joined or not, the run continues with the [then] callback from the
    state the check left; when the promise of setRoomEncryption is then
    fulfilled, [client.on] is called with the listener, and a failure of
    that call is printed by the inner catch. *)
Theorem messageListenerEncrypted_ignores_membership (s s1 : State W)
    (cb : nat) (roomId : string) (j : Joined) (tr1 : list Event) :
  run o (isUserJoinedInRoom roomId) s
  = {| res := Ok j; final := s1; trace := tr1 |} ->
  let enable := SetRoomEncryptionPromise roomId megolm in
  let register :=
    On "Event.decrypted" (MessageListenerEncryptedListener cb roomId) in
  run o (messageListenerEncrypted cb roomId) s
  = after tr1
      (run o (try_catch (messageListenerEncrypted_then cb roomId)
                messageListenerEncrypted_outer_catch) s1) /\
  (forall w2 w3 r,
     o enable (world s1) = (Ok (Ok tt), w2) ->
     o register w2 = (r, w3) ->
     run o (messageListenerEncrypted cb roomId) s
     = {| res := Ok tt;
          final := {| client := client s1; world := w3 |};
          trace :=
            (tr1 ++
             [Ev enable (Ok (Ok tt)); Ev register r] ++
             match r with
             | Ok _ => []
             | Err e =>
                 [Ev (ConsoleError
                        [LStr "Error while setting room encryption:";
                         LExn e]) (Ok tt)]
             end)%list |}).
Proof.
  intros H enable register; subst enable register.
  assert (Heq : run o (messageListenerEncrypted cb roomId) s
                = after tr1
                    (run o (try_catch
                              (messageListenerEncrypted_then cb roomId)
                              messageListenerEncrypted_outer_catch) s1)).
  { unfold messageListenerEncrypted.
    rewrite !run_try_catch, run_bind, H; cbn [res final trace].
    destruct (res (run o (messageListenerEncrypted_then cb roomId) s1))
      eqn:E; cbn [after res final trace]; rewrite E.
    - reflexivity.
    - now rewrite after_after. }
  split; [exact Heq |].
  assert (Hc : exists c, client s1 = Some c).
  { pose proof (@run_keeps_client W o _ (isUserJoinedInRoom roomId) s
                  (keeps_isUserJoinedInRoom roomId)) as Hk.
    rewrite H in Hk; cbn in Hk. rewrite Hk.
    destruct s as [[c |] w0]; [now exists c |].
    cbn in H. discriminate H. }
  destruct Hc as [c Hc]. destruct s1 as [c1 w1]; cbn in Hc; subst c1.
  intros w2 w3 r H2 H3. rewrite Heq. cbn in H2.
  unfold messageListenerEncrypted_then,
    messageListenerEncrypted_inner_catch,
    messageListenerEncrypted_outer_catch.
  cbn. unfold step, external; cbn. rewrite H2; cbn.
  unfold step, external; cbn. rewrite H3; cbn.
  destruct r as [[] | e]; reflexivity.
Qed.


(** X16: a live m.room.message event of a room other than the listened
    one makes the listener of [messageListener] throw
    Error("Error: wrong room"); the callback is not called. *)
Theorem messageListener_wrong_room (s : State W) (cb : nat)
    (roomId : string) (event : MatrixEvent) (room : Room) :
  ev_type event = "m.room.message" ->
  roomId <> room_roomId room ->
  run o (messageListener_onTimeline cb roomId event room false) s
  = {| res := Err (Error "Error: wrong room"); final := s; trace := [] |}.
Proof.
  intros Ht Hr. unfold messageListener_onTimeline.
  rewrite Ht. apply String.eqb_neq in Hr. cbn -[String.eqb].
  rewrite Hr. reflexivity.
Qed.

(** X17: [getMyPowerLevel] only ever throws Error objects.  Whatever
    fails inside (the sync, getRoom, getUserId, or the client not being a
    member of the room) is rethrown as new Error(message of the failure);
    when the reason of the failure is null or undefined, what is thrown
    instead is the TypeError of reading [error.message] in the catch
    clause.  When it returns, the value is the power level of the room
    member whose id is the client's own. *)
Theorem getMyPowerLevel_outcomes (s : State W) (roomId : string) :
  let out := run o (getMyPowerLevel roomId) s in
  (forall e, res out = Err e -> exists name m, e = JsError name m) /\
  (forall x, In x (collect failure (trace out)) ->
     (nullish x = None -> res out = Err (Error_of (err_message x))) /\
     (forall receiver, nullish x = Some receiver ->
        res out = Err (TypeError receiver "message"))) /\
  (forall n, res out = Ok n ->
     exists r uid me,
       trace out = [Ev (RoomInitialSync roomId 10) (Ok tt);
                    Ev (GetRoom roomId) (Ok (Some r));
                    Ev GetUserId (Ok uid)] /\
       getMember r uid = Some me /\
       n = powerLevel me).
Proof.
  cbv zeta. unfold getMyPowerLevel, read_message.
  destruct s as [[c |] w0].
  all: explore o.
  all: repeat match goal with u : unit |- _ => destruct u end.
  all: split; [| split].
  all: try (intros e H; try discriminate H; injection H as <-;
            do 2 eexists; reflexivity).
  all: try (intros x Hx; members; split; intros; options; reflexivity).
  all: intros n H; try discriminate H; injection H as <-.
  do 3 eexists; split; [reflexivity | split; [eassumption | reflexivity]].
Qed.

End Operations.

(* ------------------------------------------------------------------ *)
(** ** Sending and inviting: what precedes what *)

Section Sequencing.

Variable W : Type.
Variable o : Oracle W.

(** X18: when the power-levels event carries no invite level, the
    comparison with undefined is false and [inviteUser] issues the invite
    whatever the caller's own power level is. *)
Theorem inviteUser_without_invite_level (s s1 s2 : State W)
    (roomId userId : string) (pl : PowerLevels) (mine : Z)
    (tr1 tr2 : list Event) :
  run o (call (GetStateEvent roomId "m.room.power_levels" "")) s
  = {| res := Ok pl; final := s1; trace := tr1 |} ->
  run o (getMyPowerLevel roomId) s1
  = {| res := Ok mine; final := s2; trace := tr2 |} ->
  invite pl = None ->
  let out := run o (inviteUser roomId userId) s in
  collect invited (trace out) = [(roomId, userId)] /\
  out = after (tr1 ++ tr2) (run o (call (Invite roomId userId)) s2).
Proof.
  intros H1 H2 Hn out; subst out.
  pose proof H1 as H1'. apply getStateEvent_answered in H1'.
  destruct H1' as [[c Hc1] Ht1].
  pose proof (getMyPowerLevel_invites_nobody o roomId s1) as Ht2.
  pose proof (@run_keeps_client W o _ (getMyPowerLevel roomId) s1
                (keeps_getMyPowerLevel roomId)) as Hc2.
  rewrite H2 in Ht2, Hc2; cbn in Ht2, Hc2. rewrite Hc1 in Hc2.
  unfold inviteUser.
  rewrite run_bind, H1; cbn [res final trace].
  rewrite run_bind, H2; cbn [res final trace].
  rewrite Hn; cbn [js_gt]. rewrite after_after.
  split; [| reflexivity].
  destruct s2 as [c2 w2]; cbn in Hc2; subst c2.
  cbn. unfold step, external.
  ask o; cbn; rewrite !collect_app, Ht1, Ht2; reflexivity.
Qed.

(** X19: [inviteUser] calls [client.invite] at most once, for the room
    and user it was given, and its promise resolves only when that call
    was made and returned: a failed read of either power level, or a
    refused permission, ends in a rejection without any invite. *)
Theorem inviteUser_resolves_only_after_invite (s : State W)
    (roomId userId : string) :
  let out := run o (inviteUser roomId userId) s in
  (collect invited (trace out) = [] \/
   collect invited (trace out) = [(roomId, userId)]) /\
  (res out = Ok tt ->
   last_event (trace out) = Some (Ev (Invite roomId userId) (Ok tt))).
Proof.
  cbv zeta. unfold inviteUser, getMyPowerLevel, read_message.
  destruct s as [[c |] w0].
  all: explore o.
  all: repeat match goal with u : unit |- _ => destruct u end.
  all: split; [auto |].
  all: intros H; try discriminate H; reflexivity.
Qed.

(** X20: [sendEncryptedMessage] hands an event to [sendEvent] at most
    once, and only after setRoomEncryption(roomId, m.megolm.v1.aes-sha2)
    has returned normally; the event goes to the same room, has type
    m.room.message and msgtype m.text, and its body is what
    JSON.stringify returned. *)
Theorem sendEncryptedMessage_sends_after_enabling (s : State W)
    (roomId message : string) :
  let tr := trace (run o (sendEncryptedMessage roomId message) s) in
  collect send_step tr = [] \/
  collect send_step tr = [EncryptionEnabled roomId megolm] \/
  exists body,
    collect send_step tr
    = [EncryptionEnabled roomId megolm;
       EventSent roomId "m.room.message" body "m.text"] /\
    collect stringified tr = [body].
Proof.
  cbv zeta.
  unfold sendEncryptedMessage, sendEncryptedMessage_rest,
    sendEncryptedMessage_catch, isUserJoinedInRoom.
  destruct s as [[c |] w0].
  all: explore o.
  all: auto.
  all: right; right; eexists; split; reflexivity.
Qed.

(** [sendEncryptedMessage] without a client: the check throws, the catch
    clause prints, nothing else happens. *)
Lemma sendEncryptedMessage_uninitialised (s : State W)
    (roomId message : string) :
  client s = None ->
  run o (sendEncryptedMessage roomId message) s
  = {| res := Ok tt; final := s;
       trace := [Ev (ConsoleError
                       [LStr "Error sending encrypted message:";
                        LExn (Error "Client is not initialized.")])
                    (Ok tt)] |}.
Proof. destruct s as [cl w0]; cbn; intros ->. reflexivity. Qed.

(** X21: after a [runClient] whose authentication failed in a module
    that had no client, [sendEncryptedMessage] makes no call to the SDK:
    it prints "Client is not initialized." through its catch clause and
    resolves. *)
Theorem send_after_failed_login (s : State W) fp arg (x : exn)
    (roomId message : string) :
  client s = None ->
  let started := run o (runClient fp arg) s in
  In x (collect auth_failure (trace started)) ->
  run o (sendEncryptedMessage roomId message) (final started)
  = {| res := Ok tt; final := final started;
       trace := [Ev (ConsoleError
                       [LStr "Error sending encrypted message:";
                        LExn (Error "Client is not initialized.")])
                    (Ok tt)] |}.
Proof.
  intros Hs started Hx; subst started.
  apply sendEncryptedMessage_uninitialised.
  destruct (runClient_cases o s fp arg)
    as [(e & _ & _ & Hc) | (data & pre & s1 & Hout & Hpre & Hc)].
  - now rewrite Hc.
  - rewrite Hout in *; cbn [after res final trace] in *.
    rewrite collect_app in Hx.
    assert (Hq : collect auth_failure pre = []).
    { apply collect_prologue; [silent | assumption]. }
    rewrite Hq in Hx; cbn in Hx.
    destruct (guarded_auth_failure o data s1 x Hx) as (H2 & _).
    now rewrite H2, Hc.
Qed.


End Sequencing.

(* ------------------------------------------------------------------ *)
(** ** What the messaging operations never do *)

Section Never.

Variable W : Type.
Variable o : Oracle W.

Variable ok : forall R, Call R -> bool.

Lemma step_events_permitted R (c : Call R) (s : State W) :
  ok c = true ->
  forallb (permitted_event ok) (snd (step o c s)) = true.
Proof.
  intros H. destruct s as [[obj |] w]; destruct c;
    unfold step, external; cbn.
  all: try (rewrite H; reflexivity).
  all: try reflexivity.
  all: ask o; cbn; rewrite H; reflexivity.
Qed.

Lemma run_events_permitted A (p : Prog A) (s : State W) :
  only_calls ok p ->
  forallb (permitted_event ok) (trace (run o p s)) = true.
Proof.
  intros H; revert s.
  induction H as [a | e | R c k Hc _ IH]; intros s; cbn;
    try reflexivity.
  pose proof (@step_events_permitted _ c s Hc) as Hs.
  destruct (step o c s) as [[r s'] evs]; cbn in *.
  rewrite forallb_app, Hs. apply IH.
Qed.

End Never.

Section NeverCredentials.

Variable W : Type.
Variable o : Oracle W.

Lemma no_credentials_events (tr : list Event) :
  forallb (permitted_event no_credentials) tr = true ->
  existsb credential_event tr = false.
Proof.
  induction tr as [| [R c r] tr IH]; cbn; [reflexivity |].
  unfold no_credentials at 1.
  intros H. apply andb_true_iff in H as [Hc Htr].
  apply negb_true_iff in Hc. rewrite Hc. auto.
Qed.

(** X22: outside [runClient] and the bootstrap callback, nothing touches
    the credentials: sending, listening, inviting, reading the power
    level and every listener body run without reading a file, parsing it,
    logging in, creating a client or bootstrapping cross-signing. *)
Theorem messaging_never_uses_credentials (s : State W)
    (roomId userId message : string) (p cb : nat) :
  existsb credential_event
    (trace (run o (sendEncryptedMessage roomId message) s)) = false /\
  existsb credential_event (trace (run o (getMessage p) s)) = false /\
  existsb credential_event
    (trace (run o (getMessageEncrypted p roomId) s)) = false /\
  existsb credential_event
    (trace (run o (messageListener cb roomId) s)) = false /\
  existsb credential_event
    (trace (run o (messageListenerEncrypted cb roomId) s)) = false /\
  existsb credential_event
    (trace (run o (getMyPowerLevel roomId) s)) = false /\
  existsb credential_event
    (trace (run o (inviteUser roomId userId) s)) = false /\
  (forall l a body,
     listener_body l a = Some body ->
     existsb credential_event (trace (run o body s)) = false).
Proof.
  repeat split.
  1-7: apply no_credentials_events, run_events_permitted.
  - unfold sendEncryptedMessage, sendEncryptedMessage_rest,
      sendEncryptedMessage_catch, isUserJoinedInRoom. permitted.
  - unfold getMessage. permitted.
  - unfold getMessageEncrypted, isUserJoinedInRoom. permitted.
  - unfold messageListener. permitted.
  - unfold messageListenerEncrypted, isUserJoinedInRoom. permitted.
  - unfold getMyPowerLevel, read_message. permitted.
  - unfold inviteUser, getMyPowerLevel, read_message. permitted.
  - intros l a body H.
    apply no_credentials_events, run_events_permitted.
    destruct l, a; cbn in H; try discriminate H; injection H as <-.
    + unfold autoJoin. permitted.
    + unfold getMessage_onTimeline. permitted.
    + unfold getMessageEncrypted_onDecrypted. permitted.
    + unfold getMessageEncrypted_onFailure. permitted.
    + unfold messageListener_onTimeline. permitted.
    + unfold messageListenerEncrypted_onDecrypted. permitted.
Qed.

End NeverCredentials.

(* ------------------------------------------------------------------ *)
(** ** Concrete runs of the further properties *)

Lemma runClient_without_arguments_witness :
  truthy_str None = false /\
  scripted OlmInit (world (fresh calm)) = (Ok tt, calm) /\
  run scripted (runClient None CredNull) (fresh calm)
  = {| res := Err no_arguments_error; final := fresh calm; trace := [] |}.
Proof.
  split; [reflexivity | split; [reflexivity |]].
  exact (proj1 (@runClient_without_arguments
                  Scenario scripted (fresh calm) None calm
                  eq_refl eq_refl)).
Defined.

Lemma runClient_missing_properties_witness :
  truthy_str None = false /\
  scripted OlmInit (world (fresh calm)) = (Ok tt, calm) /\
  lacking None (Some file_without_password) <> [] /\
  res (run scripted (runClient None (CredObject file_without_password))
         (fresh calm))
  = Err (Error (missing_message (lacking None (Some file_without_password)))).
Proof.
  assert (H : lacking None (Some file_without_password) <> [])
    by (vm_compute; discriminate).
  split; [reflexivity | split; [reflexivity | split; [exact H |]]].
  exact (proj1 (@runClient_missing_properties
                  Scenario scripted (fresh calm) None file_without_password
                  calm eq_refl eq_refl H)).
Defined.

Lemma runClient_missing_properties_twice_witness :
  let o := with_file (Some file_without_password) scripted in
  let l := lacking (Some file_without_password)
                   (default_credentials CredOmitted) in
  truthy_str (Some "login.json") = true /\
  o _ OlmInit (world (fresh calm)) = (Ok tt, calm) /\
  o _ (ReadFileSync "login.json") calm = (Ok "", calm) /\
  o _ (JsonParse "") calm = (Ok (Some file_without_password), calm) /\
  l <> [] /\
  res (run o (runClient (Some "login.json") CredOmitted) (fresh calm))
  = Err (Error (missing_message (l ++ l))).
Proof.
  cbv zeta.
  assert (H : lacking (Some file_without_password)
                      (default_credentials CredOmitted) <> [])
    by (vm_compute; discriminate).
  repeat (split; [reflexivity |]).
  split; [exact H |].
  exact (proj1 (@runClient_missing_properties_twice
                  Scenario (with_file (Some file_without_password) scripted)
                  (fresh calm) "login.json" "" file_without_password
                  CredOmitted calm calm calm
                  eq_refl eq_refl eq_refl eq_refl H)).
Defined.

Lemma runClient_file_takes_precedence_witness :
  let o := with_file (Some file_without_password) scripted in
  truthy_str (Some "login.json") = true /\
  o _ OlmInit (world (fresh calm)) = (Ok tt, calm) /\
  o _ (ReadFileSync "login.json") calm = (Ok "", calm) /\
  o _ (JsonParse "") calm = (Ok (Some file_without_password), calm) /\
  lacking (Some file_without_password)
          (default_credentials (CredObject password_only)) = [] /\
  collect auth_args
    (trace (run o (runClient (Some "login.json") (CredObject password_only))
              (fresh calm)))
  = [(Some "alice", None, Some "https://example.org")].
Proof.
  cbv zeta.
  repeat (split; [reflexivity |]).
  exact (@runClient_file_takes_precedence
           Scenario (with_file (Some file_without_password) scripted)
           (fresh calm) "login.json" "" file_without_password
           (CredObject password_only) calm calm calm
           eq_refl eq_refl eq_refl eq_refl eq_refl).
Defined.

Lemma runClient_client_variable_witness :
  let out := run (without_crypto scripted)
                 (runClient None (CredObject alice_cred)) (fresh calm) in
  let obj :=
    {| opts := opts alice_client;
       globalBlacklistUnverifiedDevices := false;
       globalErrorOnUnknownDevices := true |} in
  In obj (collect created (trace out)) /\
  res out = Ok tt /\
  exists c, client (final out) = Some c /\ opts c = opts obj.
Proof.
  cbv zeta.
  assert (H : In {| opts := opts alice_client;
                    globalBlacklistUnverifiedDevices := false;
                    globalErrorOnUnknownDevices := true |}
                (collect created
                   (trace (run (without_crypto scripted)
                             (runClient None (CredObject alice_cred))
                             (fresh calm))))).
  { vm_compute. left. reflexivity. }
  destruct (proj2 (@runClient_client_variable
                     Scenario (without_crypto scripted) (fresh calm) None
                     (CredObject alice_cred)) _ H) as [Hc Hr].
  split; [exact H | split; [| exact Hc]].
  apply Hr. intros x Hx. vm_compute in Hx.
  destruct Hx as [<- | []]. reflexivity.
Defined.

Lemma isUserJoinedInRoom_answers_witness :
  client (running calm) = Some alice_client /\
  scripted (GetRoom lobby) (world (running calm))
  = (Ok (Some lobby_room), calm) /\
  scripted GetUserId calm = (Ok (Some alice), calm) /\
  exists j,
    res (run scripted (isUserJoinedInRoom lobby) (running calm)) = Ok j /\
    (truthy_joined j = true <->
     exists m, getMember lobby_room (Some alice) = Some m /\
               membership m = Some "join").
Proof.
  repeat (split; [reflexivity |]).
  exact (proj2 (proj2 (@isUserJoinedInRoom_answers
                         Scenario scripted (running calm) lobby))
               alice_client lobby_room (Some alice) calm calm
               eq_refl eq_refl eq_refl).
Defined.

Lemma getMessageEncrypted_not_joined_witness :
  run scripted (isUserJoinedInRoom lobby) (running stranger)
  = {| res := Ok (JBool false); final := running stranger;
       trace := [Ev (GetRoom lobby) (Ok None)] |} /\
  truthy_joined (JBool false) = false /\
  run scripted (getMessageEncrypted 7 lobby) (running stranger)
  = after [Ev (GetRoom lobby) (Ok None)]
      {| res := Ok tt; final := running stranger;
         trace :=
           [Ev (Reject 7 (JsReason "Client is not a member of the room"))
               (Ok tt);
            Ev (ConsoleLog [LStr "Client is not a member of the room"])
               (Ok tt)] |}.
Proof.
  repeat (split; [reflexivity |]).
  exact (@getMessageEncrypted_not_joined
           Scenario scripted (running stranger) (running stranger) 7 lobby
           (JBool false) [Ev (GetRoom lobby) (Ok None)] eq_refl eq_refl).
Defined.


Lemma getMessage_registers_or_rejects_witness :
  client (fresh calm) = None /\
  trace (run scripted (getMessage 7) (fresh calm))
  = [Ev (Reject 7 (TypeError "undefined" "on")) (Ok tt)].
Proof.
  split; [reflexivity |].
  exact (proj1 (proj2 (@getMessage_registers_or_rejects
                         Scenario scripted (fresh calm) 7))
               eq_refl).
Defined.

Lemma getMessageEncrypted_listeners_witness :
  let tr := trace (run scripted (getMessageEncrypted 7 lobby)
                       (running calm)) in
  In ("Event.decrypted", GetMessageEncryptedListener 7)
     (collect registered tr) /\
  collect send_step tr = [EncryptionEnabled lobby megolm].
Proof.
  cbv zeta.
  assert (H : In ("Event.decrypted", GetMessageEncryptedListener 7)
                (collect registered
                   (trace (run scripted (getMessageEncrypted 7 lobby)
                             (running calm))))).
  { vm_compute. left. reflexivity. }
  split; [exact H |].
  exact (proj1 (@getMessageEncrypted_listeners
                  Scenario scripted (running calm) 7 lobby _ _ H)).
Defined.

Lemma messageListenerEncrypted_never_throws_witness :
  let rejected :=
    run (encryption_answers (Ok (Err JsNull)) scripted)
        (messageListenerEncrypted 3 lobby) (running calm) in
  let thrown :=
    run (encryption_answers (Err JsNull) scripted)
        (messageListenerEncrypted 3 lobby) (running calm) in
  (In JsNull (collect promise_rejection (trace rejected)) /\
   last_event (trace rejected)
   = Some (Ev (ConsoleError
                 [LStr "Error while setting room encryption:"; LExn JsNull])
              (Ok tt))) /\
  (In JsNull (collect failure (trace thrown)) /\
   collect registration_failure (trace thrown) = [] /\
   last_event (trace thrown)
   = Some (Ev (ConsoleError
                 [LStr "Error while checking user's room join status:";
                  LExn JsNull]) (Ok tt))).
Proof.
  cbv zeta.
  pose proof (@messageListenerEncrypted_never_throws
                Scenario (encryption_answers (Ok (Err JsNull)) scripted)
                (running calm) 3 lobby) as H1.
  pose proof (@messageListenerEncrypted_never_throws
                Scenario (encryption_answers (Err JsNull) scripted)
                (running calm) 3 lobby) as H2.
  cbv zeta in H1, H2.
  destruct H1 as (_ & _ & _ & H1 & _).
  destruct H2 as (_ & _ & _ & _ & _ & H2 & _).
  assert (I1 : In JsNull
                 (collect promise_rejection
                    (trace (run (encryption_answers (Ok (Err JsNull))
                                   scripted)
                              (messageListenerEncrypted 3 lobby)
                              (running calm)))))
    by (vm_compute; left; reflexivity).
  assert (I2 : In JsNull
                 (collect failure
                    (trace (run (encryption_answers (Err JsNull) scripted)
                              (messageListenerEncrypted 3 lobby)
                              (running calm)))))
    by (vm_compute; left; reflexivity).
  split.
  - split; [exact I1 | exact (H1 _ I1)].
  - split; [exact I2 | split; [reflexivity | exact (H2 _ I2 eq_refl)]].
Defined.

Lemma messageListenerEncrypted_ignores_membership_witness :
  run scripted (isUserJoinedInRoom lobby) (running stranger)
  = {| res := Ok (JBool false); final := running stranger;
       trace := [Ev (GetRoom lobby) (Ok None)] |} /\
  run scripted (messageListenerEncrypted 3 lobby) (running stranger)
  = {| res := Ok tt; final := running stranger;
       trace :=
         [Ev (GetRoom lobby) (Ok None);
          Ev (SetRoomEncryptionPromise lobby megolm) (Ok (Ok tt));
          Ev (On "Event.decrypted" (MessageListenerEncryptedListener 3 lobby))
             (Ok tt)] |}.
Proof.
  split; [reflexivity |].
  exact (proj2 (@messageListenerEncrypted_ignores_membership
                  Scenario scripted (running stranger) (running stranger)
                  3 lobby (JBool false) [Ev (GetRoom lobby) (Ok None)]
                  eq_refl)
               stranger stranger (Ok tt) eq_refl eq_refl).
Defined.


Lemma messageListener_wrong_room_witness :
  ev_type elsewhere = "m.room.message" /\
  lobby <> room_roomId other_room /\
  run scripted (messageListener_onTimeline 3 lobby elsewhere other_room false)
      (running calm)
  = {| res := Err (Error "Error: wrong room");
       final := running calm; trace := [] |}.
Proof.
  assert (H : lobby <> room_roomId other_room) by (vm_compute; discriminate).
  split; [reflexivity | split; [exact H |]].
  exact (@messageListener_wrong_room
           Scenario scripted (running calm) 3 lobby elsewhere other_room
           eq_refl H).
Defined.

Lemma getMyPowerLevel_outcomes_witness :
  let out := run scripted (getMyPowerLevel lobby) (running stranger) in
  let lost :=
    run (sync_fails JsUndefined scripted) (getMyPowerLevel lobby)
        (running calm) in
  (res out = Err (Error_of (err_message (TypeError "null" "getMember"))) /\
   exists name m,
     Error_of (err_message (TypeError "null" "getMember"))
     = JsError name m) /\
  (In JsUndefined (collect failure (trace lost)) /\
   nullish JsUndefined = Some "undefined" /\
   res lost = Err (TypeError "undefined" "message")).
Proof.
  cbv zeta.
  pose proof (@getMyPowerLevel_outcomes
                Scenario scripted (running stranger) lobby) as H1.
  pose proof (@getMyPowerLevel_outcomes
                Scenario (sync_fails JsUndefined scripted) (running calm)
                lobby) as H2.
  cbv zeta in H1, H2.
  destruct H1 as (H1 & _). destruct H2 as (_ & H2 & _).
  assert (I : In JsUndefined
                (collect failure
                   (trace (run (sync_fails JsUndefined scripted)
                             (getMyPowerLevel lobby) (running calm)))))
    by (vm_compute; left; reflexivity).
  split.
  - split; [reflexivity | exact (H1 _ eq_refl)].
  - split; [exact I |].
    split; [reflexivity | exact (proj2 (H2 _ I) _ eq_refl)].
Defined.

Lemma inviteUser_without_invite_level_witness :
  let reads :=
    [Ev (RoomInitialSync lobby 10) (Ok tt);
     Ev (GetRoom lobby) (Ok (Some lobby_room));
     Ev GetUserId (Ok (Some alice))] in
  run scripted (call (GetStateEvent lobby "m.room.power_levels" ""))
      (running unrestricted)
  = {| res := Ok {| invite := None |};
       final := running unrestricted;
       trace := [Ev (GetStateEvent lobby "m.room.power_levels" "")
                   (Ok {| invite := None |})] |} /\
  run scripted (getMyPowerLevel lobby) (running unrestricted)
  = {| res := Ok 50%Z; final := running unrestricted; trace := reads |} /\
  invite {| invite := None |} = None /\
  collect invited
    (trace (run scripted (inviteUser lobby "@bob:example.org")
              (running unrestricted)))
  = [(lobby, "@bob:example.org")].
Proof.
  cbv zeta.
  repeat (split; [reflexivity |]).
  exact (proj1 (@inviteUser_without_invite_level
                  Scenario scripted (running unrestricted)
                  (running unrestricted) (running unrestricted)
                  lobby "@bob:example.org" {| invite := None |} 50 _ _
                  eq_refl eq_refl eq_refl)).
Defined.

Lemma inviteUser_resolves_only_after_invite_witness :
  let out := run scripted (inviteUser lobby "@bob:example.org")
                 (running calm) in
  res out = Ok tt /\
  last_event (trace out)
  = Some (Ev (Invite lobby "@bob:example.org") (Ok tt)).
Proof.
  cbv zeta. split; [reflexivity |].
  exact (proj2 (@inviteUser_resolves_only_after_invite
                  Scenario scripted (running calm) lobby "@bob:example.org")
               eq_refl).
Defined.

Lemma send_after_failed_login_witness :
  let started := run scripted (runClient None (CredObject alice_cred))
                     (fresh auth_down) in
  let x := JsError "M_FORBIDDEN" "Invalid username or password" in
  client (fresh auth_down) = None /\
  In x (collect auth_failure (trace started)) /\
  run scripted (sendEncryptedMessage lobby "hi") (final started)
  = {| res := Ok tt; final := final started;
       trace := [Ev (ConsoleError
                       [LStr "Error sending encrypted message:";
                        LExn (Error "Client is not initialized.")])
                    (Ok tt)] |}.
Proof.
  cbv zeta.
  assert (H : In (JsError "M_FORBIDDEN" "Invalid username or password")
                (collect auth_failure
                   (trace (run scripted
                             (runClient None (CredObject alice_cred))
                             (fresh auth_down))))).
  { vm_compute. left. reflexivity. }
  split; [reflexivity | split; [exact H |]].
  exact (@send_after_failed_login
           Scenario scripted (fresh auth_down) None (CredObject alice_cred)
           _ lobby "hi" eq_refl H).
Defined.

Lemma messaging_never_uses_credentials_witness :
  listener_body AutoJoinListener (MembershipArgs hello invitation)
  = Some (autoJoin invitation) /\
  existsb credential_event
    (trace (run scripted (autoJoin invitation) (running calm))) = false.
Proof.
  split; [reflexivity |].
  exact (proj2 (proj2 (proj2 (proj2 (proj2 (proj2 (proj2
           (@messaging_never_uses_credentials
              Scenario scripted (running calm) lobby alice "hi" 7 3)))))))
           AutoJoinListener (MembershipArgs hello invitation) _ eq_refl).
Defined.

